(** * Lab scheduler: the scheduling core of [streamlit_lab_scheduler.py]

    A shallow embedding of [schedule_for_contract], of the helpers it uses
    ([months_to_season], the inline field parsers, [parse_list_field]) and of
    the two summary figures computed from the returned schedule.

    Data model.
    - Text is [string]; [lower] and [strip] follow Python's [str.lower] and
      [str.strip] on code points below 128 (the model is about ASCII text).
    - A text cell read with [str(row.get(col, default))] is a [cell]: the
      column may be absent, the cell may hold NaN, or it holds text.
    - Numeric columns are taken as already converted ([int(...)] gives a [Z],
      [float(...)] a finite number, modelled by the rational it denotes).
      Floats are compared by their values; the floating-point addition of
      [.sum()] is not modelled but left open, as a parameter of
      [total_cost].
    - A [datetime.date] is its proleptic Gregorian ordinal
      ([date.toordinal()]), so that [date + timedelta] and [date - date] are
      integer arithmetic; [date + timedelta] raises [OverflowError] outside
      the years 1..9999, and so does the model. *)

From Stdlib Require Import ZArith QArith List String Ascii Bool Lia.
From Stdlib Require Import Sorting.Permutation Sorting.Sorted.
Import ListNotations.

#[local] Open Scope string_scope.
#[local] Open Scope list_scope.
#[local] Open Scope Z_scope.

(** ** Python strings *)

Module Str.

(** [c.isspace()] for a code point below 128: TAB..CR, FS..US and space. *)
Definition is_space (c : ascii) : bool :=
  let n := N_of_ascii c in
  (((9 <=? n) && (n <=? 13)) || ((28 <=? n) && (n <=? 32)))%N.

Definition is_upper (c : ascii) : bool :=
  let n := N_of_ascii c in ((65 <=? n) && (n <=? 90))%N.

Definition lower_char (c : ascii) : ascii :=
  if is_upper c then ascii_of_N (N_of_ascii c + 32) else c.

(** [s.lower()] *)
Fixpoint lower (s : string) : string :=
  match s with
  | EmptyString => EmptyString
  | String c s' => String (lower_char c) (lower s')
  end.

(** [s.lstrip()] *)
Fixpoint lstrip (s : string) : string :=
  match s with
  | EmptyString => EmptyString
  | String c s' => if is_space c then lstrip s' else s
  end.

(** [s.rstrip()] *)
Fixpoint rstrip (s : string) : string :=
  match s with
  | EmptyString => EmptyString
  | String c s' =>
      match rstrip s' with
      | EmptyString => if is_space c then EmptyString else String c EmptyString
      | r => String c r
      end
  end.

(** [s.strip()] *)
Definition strip (s : string) : string := lstrip (rstrip s).

(** [s.replace(old, new)] for one-character [old] and [new]. *)
Fixpoint replace (old new : ascii) (s : string) : string :=
  match s with
  | EmptyString => EmptyString
  | String c s' =>
      String (if Ascii.eqb c old then new else c) (replace old new s')
  end.

(** [s.split(sep)] for a one-character separator: never the empty list,
    [''.split(',') == ['']]. *)
Fixpoint split (sep : ascii) (s : string) : list string :=
  match s with
  | EmptyString => [EmptyString]
  | String c s' =>
      if Ascii.eqb c sep then EmptyString :: split sep s'
      else match split sep s' with
           | [] => [String c EmptyString]
           | piece :: rest => String c piece :: rest
           end
  end.

(** [sep.join(pieces)] *)
Fixpoint join (sep : ascii) (pieces : list string) : string :=
  match pieces with
  | [] => EmptyString
  | [p] => p
  | p :: rest => (p ++ String sep (join sep rest))%string
  end.

(** Truth value of a string: [if s] holds for a non-empty string. *)
Definition truthy (s : string) : bool :=
  match s with EmptyString => false | String _ _ => true end.

(** [c in s] *)
Fixpoint has_char (c : ascii) (s : string) : bool :=
  match s with
  | EmptyString => false
  | String d s' => Ascii.eqb d c || has_char c s'
  end.

(** [x in xs] on a list of strings. *)
Definition mem (x : string) (xs : list string) : bool :=
  existsb (String.eqb x) xs.

End Str.

(** ** Table cells *)

(** What [row.get(col, default)] finds in a text column. *)
Inductive cell : Type :=
| NoColumn            (* the table has no such column: [get] gives the default *)
| NaN                 (* an empty cell, which pandas holds as NaN *)
| Text (s : string).

(** [str(row.get(col, default))] *)
Definition get_str (c : cell) (default : string) : string :=
  match c with
  | NoColumn => default
  | NaN => "nan"
  | Text s => s
  end.

(** ** Field list parsing *)

(** [s.replace(';', ',').split(',')] *)
Definition pieces (s : string) : list string :=
  Str.split "," (Str.replace ";" "," s).

(** [[t.strip() for t in s.replace(';', ',').split(',') if t.strip()]]
    (line 120, on [required_tests]). *)
Definition tokens (s : string) : list string :=
  map Str.strip (filter (fun t => Str.truthy (Str.strip t)) (pieces s)).

(** [[t.strip().lower() for t in s.replace(';', ',').split(',') if t.strip()]]
    (lines 146, 150 and 154, on the three lab fields). *)
Definition tokens_lower (s : string) : list string :=
  map (fun t => Str.lower (Str.strip t))
      (filter (fun t => Str.truthy (Str.strip t)) (pieces s)).

(** The scalar arguments of [parse_list_field]: a cell that [pd.isna]
    holds to be missing, or a text. A list or tuple argument (lines 102-103)
    is not part of the model. *)
Inductive field : Type :=
| FNa
| FText (s : string).

(** [parse_list_field] (lines 99-104) on a scalar: splits on [","] only and
    keeps the case of the tokens. No code path calls it. *)
Definition parse_list_field (x : field) : list string :=
  match x with
  | FNa => []
  | FText s =>
      map Str.strip (filter (fun t => Str.truthy (Str.strip t)) (Str.split "," s))
  end.

(** ** Calendar dates *)

(** A [datetime.date] as its ordinal; day 1 is 0001-01-01. The conversion
    back to year, month and day is the one of the [datetime] module. *)
Module Date.

Definition t : Type := Z.

Definition MAXORDINAL : Z := 3652059.   (* date(9999, 12, 31).toordinal() *)

Definition is_leap (year : Z) : bool :=
  (year mod 4 =? 0) && (negb (year mod 100 =? 0) || (year mod 400 =? 0)).

Definition days_before_year (year : Z) : Z :=
  let y := year - 1 in y * 365 + y / 4 - y / 100 + y / 400.

Definition DAYS_IN_MONTH (month : Z) : Z :=
  match month with
  | 1 => 31 | 2 => 28 | 3 => 31 | 4 => 30 | 5 => 31 | 6 => 30
  | 7 => 31 | 8 => 31 | 9 => 30 | 10 => 31 | 11 => 30 | 12 => 31
  | _ => -1
  end.

Definition DAYS_BEFORE_MONTH (month : Z) : Z :=
  match month with
  | 1 => 0 | 2 => 31 | 3 => 59 | 4 => 90 | 5 => 120 | 6 => 151
  | 7 => 181 | 8 => 212 | 9 => 243 | 10 => 273 | 11 => 304 | 12 => 334
  | _ => -1
  end.

Definition days_before_month (year month : Z) : Z :=
  DAYS_BEFORE_MONTH month + (if (2 <? month) && is_leap year then 1 else 0).

Definition days_in_month (year month : Z) : Z :=
  if (month =? 2) && is_leap year then 29 else DAYS_IN_MONTH month.

(** [date(year, month, day).toordinal()] *)
Definition ymd2ord (year month day : Z) : t :=
  days_before_year year + days_before_month year month + day.

(** [date.fromordinal(n)] as (year, month, day). *)
Definition ord2ymd (n : t) : Z * Z * Z :=
  let n := n - 1 in
  let n400 := n / 146097 in
  let n := n mod 146097 in
  let year := n400 * 400 + 1 in
  let n100 := n / 36524 in
  let n := n mod 36524 in
  let n4 := n / 1461 in
  let n := n mod 1461 in
  let n1 := n / 365 in
  let n := n mod 365 in
  let year := year + (n100 * 100 + n4 * 4 + n1) in
  if (n1 =? 4) || (n100 =? 4) then (year - 1, 12, 31)
  else
    let leapyear := (n1 =? 3) && (negb (n4 =? 24) || (n100 =? 3)) in
    let month := Z.shiftr (n + 50) 5 in
    let preceding :=
      DAYS_BEFORE_MONTH month + (if (2 <? month) && leapyear then 1 else 0) in
    if n <? preceding then
      let month := month - 1 in
      let preceding :=
        preceding
        - (DAYS_IN_MONTH month + (if (month =? 2) && leapyear then 1 else 0)) in
      (year, month, n - preceding + 1)
    else (year, month, n - preceding + 1).

(** [d.month] *)
Definition month (d : t) : Z := let '(_, m, _) := ord2ymd d in m.

(** The first and the last day of a month are in that month. *)
Definition month_checked (year month0 : Z) : bool :=
  (month (ymd2ord year month0 1) =? month0)
  && (month (ymd2ord year month0 (days_in_month year month0)) =? month0).

End Date.

(** ** Exceptions *)

(** The exceptions of the date arithmetic and of the list lookup. The rows
    are typed: the cells that lines 123, 139, 158 and 163 hand to [int] and
    [float] hold numbers, so the [ValueError] of a failed conversion has no
    place in the model, and nothing is stated here about rows whose numeric
    cells are empty or not numbers. *)
Inductive exn : Type :=
| OverflowError     (* [timedelta(days=...)] or [date + timedelta] out of range *)
| IndexError.       (* [candidates_sorted[0]] on an empty list *)

Inductive result (A : Type) : Type :=
| Ok (a : A)
| Raise (e : exn).

Arguments Ok {A} a.
Arguments Raise {A} e.

Definition bind {A B : Type} (r : result A) (k : A -> result B) : result B :=
  match r with
  | Ok a => k a
  | Raise e => Raise e
  end.

Notation "x <- r ;; k" := (bind r (fun x => k))
  (at level 61, r at next level, right associativity).

(** A [for] loop over [xs] that threads the loop variables [s] and stops at
    the first exception. *)
Fixpoint for_each {S A : Type} (body : S -> A -> result S)
         (xs : list A) (s : S) : result S :=
  match xs with
  | [] => Ok s
  | x :: xs' => s' <- body s x ;; for_each body xs' s'
  end.

(** [timedelta(days=n)]: the magnitude of [days] is at most 999999999. *)
Definition timedelta (days : Z) : result Z :=
  if Z.abs days <=? 999999999 then Ok days else Raise OverflowError.

(** [date + timedelta] *)
Definition date_add (d : Date.t) (delta : Z) : result Date.t :=
  let o := d + delta in
  if (0 <? o) && (o <=? Date.MAXORDINAL) then Ok o else Raise OverflowError.

(** ** The three tables *)

Module Lab.
Record t : Type := mk {
  lab_id : Z;
  name : string;
  supported_tests : cell;
  capacity_per_day : Z;
  turnaround_days : Z;
  storage_conditions_accepted : cell;
  seasons_allowed : cell;
  price_per_test : Q
}.
End Lab.

Module Test.
Record t : Type := mk {
  test_id : Z;
  test_name : string;
  duration_days : Z;
  required_storage_condition : cell;
  season_required : cell
}.
End Test.

Module Contract.
Record t : Type := mk {
  contract_id : Z;
  product_name : string;
  active_substance : string;
  required_tests : cell;
  sample_collection_date : Date.t;
  contract_deadline : Date.t;
  max_storage_days : Z
}.
End Contract.

(** ** The schedule *)

(** The six keys an assignment has besides [test_name] and [status] when a
    lab was chosen. *)
Record placement : Type := mkPlacement {
  lab_id : Z;
  lab_name : string;
  start_date : Date.t;
  finish_date : Date.t;
  days_before_deadline : Z;
  price : Q
}.

(** One dict of [assignments]: two keys, or all eight. *)
Record assignment : Type := mkAssignment {
  test_name : string;
  status : string;
  placed : option placement
}.

(** ** Season resolver *)

(** [months_to_season] (lines 107-115). *)
Definition months_to_season (month : Z) : string :=
  if existsb (Z.eqb month) [12; 1; 2] then "winter"
  else if existsb (Z.eqb month) [3; 4; 5] then "spring"
  else if existsb (Z.eqb month) [6; 7; 8] then "summer"
  else "autumn".

(** ** Candidate ranking *)

(** One tuple of [candidates]:
    [(lab_id, name, est_start, est_finish, days_until_deadline, price)]. *)
Definition candidate : Type := (Z * string * Date.t * Date.t * Z * Q)%type.

Definition cand_lab_id (x : candidate) : Z :=
  let '(i, _, _, _, _, _) := x in i.
Definition cand_name (x : candidate) : string :=
  let '(_, n, _, _, _, _) := x in n.
Definition cand_start (x : candidate) : Date.t :=
  let '(_, _, s, _, _, _) := x in s.
Definition cand_finish (x : candidate) : Date.t :=
  let '(_, _, _, f, _, _) := x in f.
Definition cand_days (x : candidate) : Z :=
  let '(_, _, _, _, d, _) := x in d.
Definition cand_price (x : candidate) : Q :=
  let '(_, _, _, _, _, p) := x in p.

(** [a < b] on floats. *)
Definition float_lt (a b : Q) : bool :=
  match Qcompare a b with Lt => true | _ => false end.

(** [(x[3], x[5]) < (y[3], y[5])]: the first position where the two keys
    differ decides; equal keys are not less. *)
Definition key_lt (x y : candidate) : bool :=
  if negb (cand_finish x =? cand_finish y) then cand_finish x <? cand_finish y
  else if negb (Qeq_bool (cand_price x) (cand_price y))
       then float_lt (cand_price x) (cand_price y)
       else false.

(** [sorted(xs, key=...)] is stable: an element goes before the first one
    that is not smaller than it, so equal keys keep the order of [xs]. On
    keys that are totally ordered, as (date, finite float) is, this is the
    list every stable sort returns. *)
Fixpoint insert_sorted (x : candidate) (ys : list candidate) : list candidate :=
  match ys with
  | [] => [x]
  | y :: ys' => if key_lt y x then y :: insert_sorted x ys' else x :: ys
  end.

Definition sorted (xs : list candidate) : list candidate :=
  fold_right insert_sorted [] xs.

(** ** Sequential scheduler *)

(** The token lists the scheduler builds, under the names it gives them. *)

(** Line 120. *)
Definition required_tests (contract_row : Contract.t) : list string :=
  tokens (get_str (Contract.required_tests contract_row) "").

(** Line 146. *)
Definition supported (lab : Lab.t) : list string :=
  tokens_lower (get_str (Lab.supported_tests lab) "").

(** Line 150. *)
Definition lab_seasons (lab : Lab.t) : list string :=
  tokens_lower (get_str (Lab.seasons_allowed lab) "all").

(** Line 154. *)
Definition lab_storage (lab : Lab.t) : list string :=
  tokens_lower (get_str (Lab.storage_conditions_accepted lab) "").

(** [str(test_row.get('required_storage_condition', ''))] (line 140). *)
Definition req_storage_of (test_row : Test.t) : string :=
  get_str (Test.required_storage_condition test_row) "".

(** The three guards of lines 147, 151 and 155 taken together: [true] when
    none of them reaches its [continue]. *)
Definition passes_filter (test_name req_storage season : string)
           (lab : Lab.t) : bool :=
  negb (negb (Str.mem (Str.lower test_name) (supported lab)))
  && negb (negb (Str.mem "all" (lab_seasons lab))
           && negb (Str.mem season (lab_seasons lab)))
  && negb (Str.truthy req_storage
           && negb (Str.mem (Str.lower req_storage)
                            (map Str.lower (lab_storage lab)))).

(** The loop variables of the loop over [required_tests]. *)
Record loop_state : Type := mkState {
  assignments : list assignment;
  day_of_sample : Date.t
}.

Section Scheduler.

Variable labs_df : list Lab.t.
Variable tests_df : list Test.t.

(** [tests_df[tests_df['test_name'].str.lower() == test_name.lower()]],
    then [.empty] and [.iloc[0]]: the first matching row, if any. *)
Definition lookup_test (test_name : string) : option Test.t :=
  find (fun row =>
          String.eqb (Str.lower (Test.test_name row)) (Str.lower test_name))
       tests_df.

(** The body of the loop over the labs (lines 144-164); [Ok cands] unchanged
    is [continue]. *)
Definition candidates_body (test_name : string) (duration : Z)
           (req_storage : string) (season : string)
           (day_of_sample deadline : Date.t)
           (cands : list candidate) (lab : Lab.t) : result (list candidate) :=
  if negb (Str.mem (Str.lower test_name) (supported lab)) then Ok cands
  else if negb (Str.mem "all" (lab_seasons lab))
          && negb (Str.mem season (lab_seasons lab))
  then Ok cands
  else if Str.truthy req_storage
          && negb (Str.mem (Str.lower req_storage)
                           (map Str.lower (lab_storage lab)))
  then Ok cands
  else
    let turnaround := Lab.turnaround_days lab in
    let est_start := day_of_sample in
    delta <- timedelta (duration + turnaround) ;;
    est_finish <- date_add est_start delta ;;
    let days_until_deadline := deadline - est_finish in
    let price := Lab.price_per_test lab in
    Ok (cands ++ [(Lab.lab_id lab, Lab.name lab, est_start, est_finish,
                   days_until_deadline, price)]).

(** The body of the loop over [required_tests] (lines 130-183).
    [season_required] is read from the row (line 141) and not used. *)
Definition schedule_body (season : string) (deadline : Date.t)
           (st : loop_state) (test_name : string) : result loop_state :=
  match lookup_test test_name with
  | None =>
      Ok (mkState
            (assignments st
             ++ [mkAssignment test_name "test not found in tests.xlsx" None])
            (day_of_sample st))
  | Some test_row =>
      let duration := Test.duration_days test_row in
      let req_storage := req_storage_of test_row in
      candidates <-
        for_each (candidates_body test_name duration req_storage season
                                  (day_of_sample st) deadline)
                 labs_df [] ;;
      match candidates with
      | [] =>
          Ok (mkState
                (assignments st
                 ++ [mkAssignment test_name "no suitable lab found" None])
                (day_of_sample st))
      | _ :: _ =>
          match sorted candidates with
          | [] => Raise IndexError
          | chosen :: _ =>
              Ok (mkState
                    (assignments st
                     ++ [mkAssignment test_name
                           (if 0 <=? cand_days chosen then "scheduled"
                            else "will miss deadline")
                           (Some (mkPlacement
                                    (cand_lab_id chosen) (cand_name chosen)
                                    (cand_start chosen) (cand_finish chosen)
                                    (cand_days chosen) (cand_price chosen)))])
                    (cand_finish chosen))
          end
      end
  end.

(** The season is resolved here, before the loop (line 127). *)
Definition season_of (contract_row : Contract.t) : string :=
  months_to_season (Date.month (Contract.sample_collection_date contract_row)).

(** The loop variables once the first [i] required tests are done, that is
    when iteration [i] (counted from 0) begins. *)
Definition state_at (contract_row : Contract.t) (i : nat) : result loop_state :=
  for_each (schedule_body (season_of contract_row)
                          (Contract.contract_deadline contract_row))
           (firstn i (required_tests contract_row))
           (mkState [] (Contract.sample_collection_date contract_row)).

(** [schedule_for_contract] (lines 118-185). [max_storage] is read from the
    contract (line 123) and not used. *)
Definition schedule_for_contract (contract_row : Contract.t)
  : result (list assignment) :=
  let required_tests := required_tests contract_row in
  let sample_date := Contract.sample_collection_date contract_row in
  let deadline := Contract.contract_deadline contract_row in
  let season := months_to_season (Date.month sample_date) in
  st <- for_each (schedule_body season deadline) required_tests
                 (mkState [] sample_date) ;;
  Ok (assignments st).

End Scheduler.

(** ** Cost and risk summary *)

(** ['price' in sch.columns]: the frame built from the dicts has a column
    for every key that some dict has. *)
Definition has_price_column (sch : list assignment) : bool :=
  existsb (fun a => match placed a with Some _ => true | None => false end) sch.

(** ['status' in sch.columns] *)
Definition has_status_column (sch : list assignment) : bool :=
  match sch with [] => false | _ :: _ => true end.

(** [sch[sch['status'] == s]] *)
Definition rows_with_status (s : string) (sch : list assignment)
  : list assignment :=
  filter (fun a => String.eqb (status a) s) sch.

(** [frame['price']]: NaN ([None]) where the dict had no such key. *)
Definition price_column (sch : list assignment) : list (option Q) :=
  map (fun a => option_map price (placed a)) sch.

Section Summary.

(** [column.sum()] of a float64 column, NaN being [None]: the floating-point
    addition that pandas performs, in its own order and with its own
    rounding. It is left open; what a theorem needs of it is a hypothesis of
    that theorem. *)
Variable series_sum : list (option Q) -> Q.


End Summary.

(** [missed] (line 199): [.shape[0]] is the number of rows. *)
Definition missed (sch : list assignment) : Z :=
  if has_status_column sch
  then Z.of_nat (List.length (rows_with_status "will miss deadline" sch))
  else 0.

(** ** The properties, in the words of the specification *)

(** A token set contains [s], compared without regard to case. *)
Definition contains_ci (set : list string) (s : string) : Prop :=
  exists tok, In tok set /\ Str.lower tok = Str.lower s.

(** The constraint filter on the texts the scheduler has read from the two
    rows: the storage requirement is [req_storage_of], that is [str] of the
    cell, so that a cell pandas holds as NaN is the requirement ["nan"]. *)
Definition Eligible (test : Test.t) (lab : Lab.t) (season : string) : Prop :=
  contains_ci (supported lab) (Test.test_name test)
  /\ (In "all" (lab_seasons lab) \/ In season (lab_seasons lab))
  /\ (req_storage_of test = ""
      \/ contains_ci (lab_storage lab) (req_storage_of test)).

(** The storage condition of the specification, read on the cell of the
    test: an empty cell, an empty text and an absent column are no
    requirement; any other text must be among the lab's storage conditions,
    compared without regard to case. *)
Definition storage_condition_met (test : Test.t) (lab : Lab.t) : Prop :=
  match Test.required_storage_condition test with
  | NoColumn => True
  | NaN => True
  | Text s => s = "" \/ contains_ci (lab_storage lab) s
  end.

(** The constraint filter of the specification. *)
Definition SpecEligible (test : Test.t) (lab : Lab.t) (season : string) : Prop :=
  contains_ci (supported lab) (Test.test_name test)
  /\ (In "all" (lab_seasons lab) \/ In season (lab_seasons lab))
  /\ storage_condition_met test lab.

(** An assignment resolved to a lab. *)
Definition resolved (a : assignment) : Prop :=
  status a = "scheduled" \/ status a = "will miss deadline".

(** The [price] field of the assignments with status [s], one after the
    other in the order of the schedule; [None] where an assignment has no
    such field. *)
Fixpoint prices_with_status (s : string) (sch : list assignment)
  : list (option Q) :=
  match sch with
  | [] => []
  | a :: sch' =>
      if String.eqb (status a) s
      then option_map price (placed a) :: prices_with_status s sch'
      else prices_with_status s sch'
  end.

(** The schedule without the assignments with status [s]. *)
Definition without_status (s : string) (sch : list assignment)
  : list assignment :=
  filter (fun a => negb (String.eqb (status a) s)) sch.

(** The number of assignments with status [s]. *)
Definition count_status (s : string) (sch : list assignment) : Z :=
  Z.of_nat (count_occ string_dec (map status sch) s).

(** The tuple that the loop over the labs appends for a lab it does not
    skip, when the dates are in range. *)
Definition candidate_of (duration : Z) (day deadline : Date.t) (lab : Lab.t)
  : candidate :=
  (Lab.lab_id lab, Lab.name lab, day,
   day + (duration + Lab.turnaround_days lab),
   deadline - (day + (duration + Lab.turnaround_days lab)),
   Lab.price_per_test lab).

(** [finish_date = start_date + duration_days + turnaround_days]. *)
Definition finish_of (start : Date.t) (test : Test.t) (lab : Lab.t) : Date.t :=
  start + Test.duration_days test + Lab.turnaround_days lab.

(** Ascending by finish date, ties broken ascending by price. *)
Definition key_le (x y : candidate) : Prop :=
  cand_finish x < cand_finish y
  \/ (cand_finish x = cand_finish y /\ (cand_price x <= cand_price y)%Q).

(** Lab [lab] is ranked no later than lab [lab'] for a test started on
    [start]. *)
Definition ranks_before (start : Date.t) (test : Test.t) (lab lab' : Lab.t)
  : Prop :=
  finish_of start test lab <= finish_of start test lab'
  /\ (finish_of start test lab' = finish_of start test lab ->
      (Lab.price_per_test lab <= Lab.price_per_test lab')%Q).

(** What one iteration of the scheduler does with the required test [name]
    when the timeline stands at [day]: the assignment it emits and the day
    the timeline stands at afterwards. *)
Inductive outcome (labs : list Lab.t) (tests : list Test.t)
          (season : string) (deadline : Date.t) (name : string) (day : Date.t)
  : assignment -> Date.t -> Prop :=
| out_not_found :
    lookup_test tests name = None ->
    outcome labs tests season deadline name day
            (mkAssignment name "test not found in tests.xlsx" None) day
| out_no_lab (test : Test.t) :
    lookup_test tests name = Some test ->
    (forall lab, In lab labs ->
                 passes_filter name (req_storage_of test) season lab = false) ->
    outcome labs tests season deadline name day
            (mkAssignment name "no suitable lab found" None) day
| out_chosen (test : Test.t) (lab : Lab.t) :
    lookup_test tests name = Some test ->
    In lab labs ->
    passes_filter name (req_storage_of test) season lab = true ->
    (forall lab', In lab' labs ->
                  passes_filter name (req_storage_of test) season lab' = true ->
                  ranks_before day test lab lab') ->
    outcome labs tests season deadline name day
            (mkAssignment name
               (if 0 <=? deadline - finish_of day test lab
                then "scheduled" else "will miss deadline")
               (Some (mkPlacement (Lab.lab_id lab) (Lab.name lab) day
                                  (finish_of day test lab)
                                  (deadline - finish_of day test lab)
                                  (Lab.price_per_test lab))))
            (finish_of day test lab).

(** ** Sample data *)

Module Sample.

(** [sample_labs] and [sample_tests], with Latin lab names. *)
Definition lab_a : Lab.t :=
  Lab.mk 1 "Lab A" (Text "Residue, Purity") 10 7 (Text "+4C, -20C")
         (Text "all") 120.
Definition lab_b : Lab.t :=
  Lab.mk 2 "Lab B" (Text "Residue") 5 14 (Text "+4C")
         (Text "summer,autumn") 100.
Definition labs : list Lab.t := [lab_a; lab_b].

Definition residue : Test.t := Test.mk 1 "Residue" 3 (Text "+4C") (Text "").
Definition purity : Test.t := Test.mk 2 "Purity" 2 (Text "room") (Text "").
Definition tests : list Test.t := [residue; purity].

(** The contract of [sample_contracts], sampled on 2024-01-10 and due on
    2024-02-09, with one test more that no table knows. *)
Definition contract : Contract.t :=
  Contract.mk 1 "Product X" "AS1" (Text "Residue; Ghost ;Purity")
              (Date.ymd2ord 2024 1 10) (Date.ymd2ord 2024 2 9) 14.

(** A contract sampled on 2024-02-25 whose second test starts in March, and
    two labs that differ in the season they work in. *)
Definition lab_winter : Lab.t :=
  Lab.mk 3 "Winter lab" (Text "Residue;Purity") 4 7 (Text "+4C;room")
         (Text "Winter") 90.
Definition lab_spring : Lab.t :=
  Lab.mk 4 "Spring lab" (Text "Residue;Purity") 4 1 (Text "+4C;room")
         (Text "spring") 10.
Definition seasonal_labs : list Lab.t := [lab_spring; lab_winter].
Definition drifting : Contract.t :=
  Contract.mk 2 "Product Y" "AS2" (Text "residue,PURITY")
              (Date.ymd2ord 2024 2 25) (Date.ymd2ord 2024 3 10) 14.

(** Two labs that finish on the same day at different prices, and one that
    is cheaper but slower. *)
Definition lab_dear : Lab.t :=
  Lab.mk 5 "Dear" (Text "Residue") 1 7 (Text "+4C") NoColumn 150.
Definition lab_fair : Lab.t :=
  Lab.mk 6 "Fair" (Text "Residue") 1 7 (Text "+4c") NoColumn 110.
Definition lab_slow : Lab.t :=
  Lab.mk 7 "Slow" (Text "Residue") 1 9 (Text "+4C") NoColumn 20.
Definition priced_labs : list Lab.t := [lab_dear; lab_slow; lab_fair].

(** The schedules the scheduler returns for them (days as ordinals:
    738895 is 2024-01-10, 738941 is 2024-02-25, 738951 is 2024-03-06). *)
Definition schedule : list assignment :=
  [ mkAssignment "Residue" "scheduled"
      (Some (mkPlacement 1 "Lab A" 738895 738905 20 120));
    mkAssignment "Ghost" "test not found in tests.xlsx" None;
    mkAssignment "Purity" "no suitable lab found" None ].

Definition drifting_schedule : list assignment :=
  [ mkAssignment "residue" "scheduled"
      (Some (mkPlacement 3 "Winter lab" 738941 738951 4 90));
    mkAssignment "PURITY" "will miss deadline"
      (Some (mkPlacement 3 "Winter lab" 738951 738960 (-5) 90)) ].

Definition priced_schedule : list assignment :=
  [ mkAssignment "Residue" "scheduled"
      (Some (mkPlacement 6 "Fair" 738895 738905 20 110));
    mkAssignment "Ghost" "test not found in tests.xlsx" None;
    mkAssignment "Purity" "no suitable lab found" None ].

End Sample.

(** ** Further notions *)

(** A well-formed token: trimmed, not empty and free of both separators. *)
Definition is_token (t : string) : Prop :=
  Str.strip t = t /\ t <> ""
  /\ Str.has_char "," t = false /\ Str.has_char ";" t = false.

(** Where the timeline stands after the assignments [sch], having stood at
    [start] before them: at the finish date of the last one that has a
    placement. *)
Definition timeline_after (start : Date.t) (sch : list assignment) : Date.t :=
  fold_left (fun day a => match placed a with
                          | Some p => finish_date p
                          | None => day
                          end)
            sch start.

(** The date arithmetic of line 161 leaves the range of [timedelta] or of
    [date] for a test of [duration] days at a lab, started on [day]. *)
Definition out_of_range (day : Date.t) (duration : Z) (lab : Lab.t) : Prop :=
  999999999 < Z.abs (duration + Lab.turnaround_days lab)
  \/ day + (duration + Lab.turnaround_days lab) <= 0
  \/ Date.MAXORDINAL < day + (duration + Lab.turnaround_days lab).

(** The [price] fields of a list of assignments, in order. *)
Fixpoint placed_prices (sch : list assignment) : list Q :=
  match sch with
  | [] => []
  | a :: sch' =>
      match placed a with
      | Some p => price p :: placed_prices sch'
      | None => placed_prices sch'
      end
  end.

(** ** More sample data *)

Module Sample2.

(** A test whose storage requirement was typed with a blank in front. *)
Definition blank : Test.t := Test.mk 3 "Residue" 3 (Text " +4C") NoColumn.
Definition blank_contract : Contract.t :=
  Contract.mk 3 "Product Z" "AS3" (Text "Residue")
              (Date.ymd2ord 2024 1 10) (Date.ymd2ord 2024 2 9) 14.
Definition blank_schedule : list assignment :=
  [ mkAssignment "Residue" "no suitable lab found" None ].

(** The same lab entered twice under two ids. *)
Definition twin_1 : Lab.t :=
  Lab.mk 8 "Twin 1" (Text "Residue") 1 7 (Text "+4C") NoColumn 110.
Definition twin_2 : Lab.t :=
  Lab.mk 9 "Twin 2" (Text "Residue") 1 7 (Text "+4C") NoColumn 110.
Definition twins : list Lab.t := [Sample.lab_dear; twin_1; twin_2].
Definition twins_contract : Contract.t :=
  Contract.mk 4 "Product T" "AS4" (Text "Residue")
              (Date.ymd2ord 2024 1 10) (Date.ymd2ord 2024 2 9) 14.
Definition twins_schedule : list assignment :=
  [ mkAssignment "Residue" "scheduled"
      (Some (mkPlacement 8 "Twin 1" 738895 738905 20 110)) ].

(** A contract sampled five days before the last day of the calendar. *)
Definition last_days : Contract.t :=
  Contract.mk 5 "Product L" "AS5" (Text "Ghost;Residue")
              (Date.MAXORDINAL - 5) Date.MAXORDINAL 14.

(** The drifting contract of the samples, due on 2024-03-01 already. *)
Definition late_contract : Contract.t :=
  Contract.mk 6 "Product Y" "AS2" (Text "residue,PURITY")
              (Date.ymd2ord 2024 2 25) (Date.ymd2ord 2024 3 1) 14.
Definition late_schedule : list assignment :=
  [ mkAssignment "residue" "will miss deadline"
      (Some (mkPlacement 3 "Winter lab" 738941 738951 (-5) 90));
    mkAssignment "PURITY" "will miss deadline"
      (Some (mkPlacement 3 "Winter lab" 738951 738960 (-14) 90)) ].

(** Residue with the cell of its storage requirement left empty in the
    sheet, which pandas reads as NaN, and a contract that requires it. *)
Definition unconstrained : Test.t := Test.mk 4 "Residue" 3 NaN NaN.
Definition unconstrained_contract : Contract.t :=
  Contract.mk 8 "Product U" "AS8" (Text "Residue")
              (Date.ymd2ord 2024 1 10) (Date.ymd2ord 2024 2 9) 14.


(** The sample contract with one more required test at the end. *)
Definition longer_contract : Contract.t :=
  Contract.mk 1 "Product X" "AS1" (Text "Residue; Ghost ;Purity, Residue")
              (Date.ymd2ord 2024 1 10) (Date.ymd2ord 2024 2 9) 14.
Definition longer_schedule : list assignment :=
  Sample.schedule
  ++ [ mkAssignment "Residue" "scheduled"
         (Some (mkPlacement 1 "Lab A" 738905 738915 10 120)) ].

End Sample2.

(** * Properties *)

(** ** Strings *)

Ltac all_chars c :=
  destruct c as [[] [] [] [] [] [] [] []]; vm_compute; try reflexivity.

Lemma lower_char_idem (c : ascii) :
  Str.lower_char (Str.lower_char c) = Str.lower_char c.
Proof. all_chars c. Qed.

Lemma is_space_lower_char (c : ascii) :
  Str.is_space (Str.lower_char c) = Str.is_space c.
Proof. all_chars c. Qed.

Lemma lower_idem (s : string) : Str.lower (Str.lower s) = Str.lower s.
Proof.
  induction s as [|c s IH]; simpl; [reflexivity|].
  now rewrite lower_char_idem, IH.
Qed.

Lemma lower_lstrip (s : string) :
  Str.lower (Str.lstrip s) = Str.lstrip (Str.lower s).
Proof.
  induction s as [|c s IH]; simpl; [reflexivity|].
  rewrite is_space_lower_char. destruct (Str.is_space c); [exact IH|reflexivity].
Qed.

Lemma lower_rstrip (s : string) :
  Str.lower (Str.rstrip s) = Str.rstrip (Str.lower s).
Proof.
  induction s as [|c s IH]; simpl; [reflexivity|].
  rewrite <- IH, is_space_lower_char.
  destruct (Str.rstrip s); simpl; [destruct (Str.is_space c)|]; reflexivity.
Qed.

Lemma lower_strip (s : string) :
  Str.lower (Str.strip s) = Str.strip (Str.lower s).
Proof. unfold Str.strip. now rewrite lower_lstrip, lower_rstrip. Qed.

Lemma lower_nonempty (s : string) : Str.truthy (Str.lower s) = Str.truthy s.
Proof. destruct s; reflexivity. Qed.

Lemma truthy_false (s : string) : Str.truthy s = false <-> s = "".
Proof. destruct s; simpl; split; (reflexivity || discriminate). Qed.

Lemma truthy_true (s : string) : Str.truthy s = true <-> s <> "".
Proof. destruct s; simpl; split; (congruence || reflexivity). Qed.

Lemma lstrip_idem (s : string) : Str.lstrip (Str.lstrip s) = Str.lstrip s.
Proof.
  induction s as [|c s IH]; simpl; [reflexivity|].
  destruct (Str.is_space c) eqn:E; [exact IH|]. simpl. now rewrite E.
Qed.

Lemma rstrip_idem (s : string) : Str.rstrip (Str.rstrip s) = Str.rstrip s.
Proof.
  induction s as [|c s IH]; simpl; [reflexivity|].
  destruct (Str.rstrip s) as [|d r] eqn:E.
  - destruct (Str.is_space c) eqn:Ec; simpl; [reflexivity|]. now rewrite Ec.
  - simpl in *. now rewrite IH.
Qed.

Lemma rstrip_lstrip (s : string) :
  Str.rstrip (Str.lstrip s) = Str.lstrip (Str.rstrip s).
Proof.
  induction s as [|c s IH]; simpl; [reflexivity|].
  destruct (Str.is_space c) eqn:Ec.
  - rewrite IH. destruct (Str.rstrip s) as [|d r]; simpl;
      [reflexivity | now rewrite Ec].
  - change (Str.rstrip (String c s))
      with (match Str.rstrip s with
            | "" => if Str.is_space c then "" else String c ""
            | String d r => String c (String d r)
            end).
    rewrite Ec. destruct (Str.rstrip s); simpl; now rewrite Ec.
Qed.

Lemma strip_idem (s : string) : Str.strip (Str.strip s) = Str.strip s.
Proof.
  unfold Str.strip.
  now rewrite rstrip_lstrip, rstrip_idem, lstrip_idem.
Qed.

Lemma mem_In (x : string) (xs : list string) :
  Str.mem x xs = true <-> In x xs.
Proof.
  unfold Str.mem. rewrite existsb_exists. split.
  - intros (y & Hy & E). apply String.eqb_eq in E. now subst.
  - intros H. exists x. split; [exact H | apply String.eqb_refl].
Qed.

Lemma mem_false (x : string) (xs : list string) :
  Str.mem x xs = false <-> ~ In x xs.
Proof.
  rewrite <- mem_In. destruct (Str.mem x xs); split; congruence.
Qed.

Lemma split_not_nil (sep : ascii) (s : string) : Str.split sep s <> [].
Proof.
  induction s as [|c s IH]; simpl; [discriminate|].
  destruct (Ascii.eqb c sep); [discriminate|].
  destruct (Str.split sep s); discriminate.
Qed.

(** The pieces are what lies between the separators: joining them again
    gives the text back. *)
Lemma join_split (sep : ascii) (s : string) :
  Str.join sep (Str.split sep s) = s.
Proof.
  induction s as [|c s IH]; simpl; [reflexivity|].
  destruct (Ascii.eqb c sep) eqn:E.
  - apply Ascii.eqb_eq in E. subst c.
    pose proof (split_not_nil sep s) as Hn.
    destruct (Str.split sep s) as [|p rest]; [congruence|].
    simpl in *. now rewrite IH.
  - pose proof (split_not_nil sep s) as Hn.
    destruct (Str.split sep s) as [|p rest]; [congruence|].
    destruct rest as [|q rest]; simpl in *; now rewrite <- IH.
Qed.

(** No piece holds the separator. *)
Lemma split_no_sep (sep : ascii) (s p : string) :
  In p (Str.split sep s) -> Str.has_char sep p = false.
Proof.
  revert p. induction s as [|c s IH]; simpl; intros p Hp.
  - destruct Hp as [<-|[]]. reflexivity.
  - destruct (Ascii.eqb c sep) eqn:E.
    + destruct Hp as [<-|Hp]; [reflexivity | now apply IH].
    + destruct (Str.split sep s) as [|q rest].
      * destruct Hp as [<-|[]]. simpl. now rewrite E.
      * destruct Hp as [<-|Hp].
        -- simpl. rewrite E. apply IH. now left.
        -- apply IH. now right.
Qed.

(** A character that the text does not hold is in none of its pieces. *)
Lemma split_no_char (sep c : ascii) (s p : string) :
  Str.has_char c s = false ->
  In p (Str.split sep s) -> Str.has_char c p = false.
Proof.
  revert p. induction s as [|d s IH]; simpl; intros p Hc Hp.
  - destruct Hp as [<-|[]]. reflexivity.
  - apply orb_false_iff in Hc. destruct Hc as [Hd Hc].
    destruct (Ascii.eqb d sep).
    + destruct Hp as [<-|Hp]; [reflexivity | now apply IH].
    + destruct (Str.split sep s) as [|q rest].
      * destruct Hp as [<-|[]]. simpl. now rewrite Hd.
      * destruct Hp as [<-|Hp].
        -- simpl. rewrite Hd. apply IH; [exact Hc | now left].
        -- apply IH; [exact Hc | now right].
Qed.

Lemma replace_no_old (old new : ascii) (s : string) :
  old <> new -> Str.has_char old (Str.replace old new s) = false.
Proof.
  intros Hne. induction s as [|c s IH]; simpl; [reflexivity|].
  rewrite IH, orb_false_r.
  destruct (Ascii.eqb c old) eqn:E.
  - apply Ascii.eqb_neq. congruence.
  - exact E.
Qed.

Lemma pieces_no_separator (s p : string) :
  In p (pieces s) ->
  Str.has_char "," p = false /\ Str.has_char ";" p = false.
Proof.
  unfold pieces. intros Hp. split.
  - eapply split_no_sep, Hp.
  - eapply split_no_char; [|exact Hp]. apply replace_no_old. discriminate.
Qed.

Lemma tokens_lower_tokens (s : string) :
  tokens_lower s = map Str.lower (tokens s).
Proof. unfold tokens_lower, tokens. now rewrite map_map. Qed.

Lemma tokens_filter_strip (s : string) :
  tokens s = filter Str.truthy (map Str.strip (pieces s)).
Proof.
  unfold tokens. induction (pieces s) as [|p ps IH]; simpl; [reflexivity|].
  destruct (Str.truthy (Str.strip p)); simpl; now rewrite IH.
Qed.

Lemma tokens_trimmed (s t : string) :
  In t (tokens s) -> Str.strip t = t /\ t <> "".
Proof.
  rewrite tokens_filter_strip, filter_In, in_map_iff.
  intros ((p & <- & _) & Ht). split; [apply strip_idem | now apply truthy_true].
Qed.

Lemma tokens_lower_normal (s t : string) :
  In t (tokens_lower s) -> Str.strip t = t /\ Str.lower t = t /\ t <> "".
Proof.
  rewrite tokens_lower_tokens, in_map_iff. intros (u & <- & Hu).
  apply tokens_trimmed in Hu. destruct Hu as [Hs Hne].
  repeat split.
  - now rewrite <- lower_strip, Hs.
  - apply lower_idem.
  - apply truthy_true. rewrite lower_nonempty. now apply truthy_true.
Qed.

(** The string operations on the cases the documentation of [str] gives. *)
Example split_examples :
  Str.split "," "" = [""]
  /\ Str.split "," "a,,b," = ["a"; ""; "b"; ""]
  /\ Str.split "," "Residue" = ["Residue"].
Proof. repeat split. Qed.

Example strip_examples :
  Str.strip "  +4C " = "+4C"
  /\ Str.strip "   " = ""
  /\ Str.strip (String "009" (String "028" "a b" ++ String "010" "")) = "a b"
  /\ Str.lower "Residue +4C [Z]" = "residue +4c [z]".
Proof. repeat split. Qed.

Example tokens_examples :
  tokens " a , ;b;; C  d ," = ["a"; "b"; "C  d"]
  /\ tokens_lower " a , ;b;; C  d ," = ["a"; "b"; "c  d"]
  /\ tokens " ; , " = []
  /\ tokens_lower "nan" = ["nan"].
Proof. repeat split. Qed.

(** ** Calendar *)

(** The ordinals of the sample dates. *)
Example ordinal_examples :
  Date.ymd2ord 2024 1 10 = 738895
  /\ Date.ord2ymd 738895 = (2024, 1, 10)
  /\ Date.ord2ymd 738951 = (2024, 3, 6)
  /\ Date.ord2ymd 1 = (1, 1, 1)
  /\ Date.ord2ymd Date.MAXORDINAL = (9999, 12, 31).
Proof. repeat split. Qed.

(** Over a whole cycle of 400 years, [month] reads back the month a date
    was built from, on the first and on the last day of every month. *)
Lemma month_of_ymd2ord (year month : Z) :
  1900 <= year < 2300 -> 1 <= month <= 12 ->
  Date.month (Date.ymd2ord year month 1) = month
  /\ Date.month (Date.ymd2ord year month (Date.days_in_month year month))
     = month.
Proof.
  intros Hy Hm.
  assert (Hall : forallb (fun y => forallb (Date.month_checked y)
                                           (map Z.of_nat (seq 1 12)))
                         (map Z.of_nat (seq 1900 400)) = true)
    by (vm_compute; reflexivity).
  rewrite forallb_forall in Hall.
  assert (Hyear : In year (map Z.of_nat (seq 1900 400))).
  { apply in_map_iff. exists (Z.to_nat year). split; [lia|].
    apply in_seq. lia. }
  specialize (Hall year Hyear). rewrite forallb_forall in Hall.
  assert (Hmonth : In month (map Z.of_nat (seq 1 12))).
  { apply in_map_iff. exists (Z.to_nat month). split; [lia|].
    apply in_seq. lia. }
  specialize (Hall month Hmonth). unfold Date.month_checked in Hall.
  apply andb_true_iff in Hall. destruct Hall as [H1 H2].
  apply Z.eqb_eq in H1, H2. now split.
Qed.

(** ** Field list parser *)

(** C10, as the code has it. A text field is cut at every [","] and [";"]
    (the pieces joined by [","] give the text back with [";"] turned into
    [","], and no piece holds either separator); the tokens are the trimmed
    pieces that are not empty, in the order of the text. [required_tests] is
    that list of tokens, in the case the contract wrote them; the three lab
    fields are that list lower-cased. An empty text gives no token, and so
    does an absent column, except that an absent [seasons_allowed] stands for
    the one token ["all"]. *)
Theorem field_list_parsing (s : string) :
  (Str.join "," (pieces s) = Str.replace ";" "," s
   /\ (forall p, In p (pieces s) ->
         Str.has_char "," p = false /\ Str.has_char ";" p = false))
  /\ (tokens s = filter Str.truthy (map Str.strip (pieces s))
      /\ forall t, In t (tokens s) -> Str.strip t = t /\ t <> "")
  /\ (tokens_lower s = map Str.lower (tokens s)
      /\ forall t, In t (tokens_lower s) ->
           Str.strip t = t /\ Str.lower t = t /\ t <> "")
  /\ (forall c, Contract.required_tests c = Text s -> required_tests c = tokens s)
  /\ (forall lab,
        (Lab.supported_tests lab = Text s -> supported lab = tokens_lower s)
        /\ (Lab.seasons_allowed lab = Text s -> lab_seasons lab = tokens_lower s)
        /\ (Lab.storage_conditions_accepted lab = Text s ->
            lab_storage lab = tokens_lower s))
  /\ (tokens "" = [] /\ tokens_lower "" = [])
  /\ (forall c, Contract.required_tests c = NoColumn -> required_tests c = [])
  /\ (forall lab,
        (Lab.supported_tests lab = NoColumn -> supported lab = [])
        /\ (Lab.storage_conditions_accepted lab = NoColumn -> lab_storage lab = [])
        /\ (Lab.seasons_allowed lab = NoColumn -> lab_seasons lab = ["all"])).
Proof.
  repeat match goal with
         | |- _ /\ _ => split
         | |- forall _ : Lab.t, _ => intros lab
         end.
  - unfold pieces. apply join_split.
  - apply pieces_no_separator.
  - apply tokens_filter_strip.
  - apply tokens_trimmed.
  - apply tokens_lower_tokens.
  - apply tokens_lower_normal.
  - intros c E. unfold required_tests. now rewrite E.
  - intros E. unfold supported. now rewrite E.
  - intros E. unfold lab_seasons. now rewrite E.
  - intros E. unfold lab_storage. now rewrite E.
  - reflexivity.
  - reflexivity.
  - intros c E. unfold required_tests. now rewrite E.
  - intros E. unfold supported. now rewrite E.
  - intros E. unfold lab_storage. now rewrite E.
  - intros E. unfold lab_seasons. now rewrite E.
Qed.

(** The sample contract and the sample labs, parsed. *)
Lemma field_list_parsing_witness :
  required_tests Sample.contract = ["Residue"; "Ghost"; "Purity"]
  /\ supported Sample.lab_a = ["residue"; "purity"]
  /\ lab_seasons Sample.lab_b = ["summer"; "autumn"]
  /\ lab_storage Sample.lab_a = ["+4c"; "-20c"]
  /\ lab_seasons Sample.lab_dear = ["all"].
Proof.
  pose proof (field_list_parsing "Residue; Ghost ;Purity")
    as (_ & _ & _ & Hreq & _).
  pose proof (field_list_parsing "Residue, Purity") as (_ & _ & _ & _ & Hsup & _).
  pose proof (field_list_parsing "summer,autumn") as (_ & _ & _ & _ & Hsea & _).
  pose proof (field_list_parsing "+4C, -20C")
    as (_ & _ & _ & _ & Hsto & _ & _ & Habs).
  split; [|split; [|split; [|split]]].
  - rewrite (Hreq Sample.contract eq_refl). reflexivity.
  - rewrite (proj1 (Hsup Sample.lab_a) eq_refl). reflexivity.
  - rewrite (proj1 (proj2 (Hsea Sample.lab_b)) eq_refl). reflexivity.
  - rewrite (proj2 (proj2 (Hsto Sample.lab_a)) eq_refl). reflexivity.
  - exact (proj2 (proj2 (Habs Sample.lab_dear)) eq_refl).
Defined.

(** C10 as stated fails: the tokens of [required_tests] keep their case and
    their repetitions, an absent [seasons_allowed] is not empty, and
    [parse_list_field] does not cut at [";"]. *)
Lemma field_list_parsing_counterexample :
  let c := Contract.mk 0 "" "" (Text "Residue;residue;Residue") 1 1 0 in
  required_tests c = ["Residue"; "residue"; "Residue"]
  /\ ~ (forall t, In t (required_tests c) -> Str.lower t = t)
  /\ Lab.seasons_allowed Sample.lab_dear = NoColumn
  /\ lab_seasons Sample.lab_dear <> []
  /\ parse_list_field (FText "Residue;Purity") = ["Residue;Purity"].
Proof.
  cbv zeta. repeat split.
  - intros H. specialize (H "Residue" (or_introl eq_refl)). discriminate H.
  - discriminate.
Qed.

(** ** Constraint filter *)

Lemma contains_ci_lower (s t : string) (set : list string) :
  Str.lower s = Str.lower t -> contains_ci set s <-> contains_ci set t.
Proof.
  intros E. unfold contains_ci. split; intros (tok & Hin & Ht); exists tok;
    (split; [exact Hin | congruence]).
Qed.

Lemma mem_lower_tokens (x s : string) :
  Str.mem (Str.lower x) (tokens_lower s) = true
  <-> contains_ci (tokens_lower s) x.
Proof.
  rewrite mem_In. unfold contains_ci. split.
  - intros H. exists (Str.lower x). split; [exact H | apply lower_idem].
  - intros (tok & Hin & E).
    destruct (tokens_lower_normal _ _ Hin) as (_ & Hl & _).
    rewrite <- E, Hl. exact Hin.
Qed.

Lemma mem_lower_map (x : string) (set : list string) :
  Str.mem (Str.lower x) (map Str.lower set) = true <-> contains_ci set x.
Proof.
  rewrite mem_In, in_map_iff. unfold contains_ci.
  split; intros (tok & A & B); exists tok; tauto.
Qed.

(** What the three guards test, for a required name and a storage text. *)
Lemma passes_filter_iff (test_name req_storage season : string) (lab : Lab.t) :
  passes_filter test_name req_storage season lab = true
  <-> contains_ci (supported lab) test_name
      /\ (In "all" (lab_seasons lab) \/ In season (lab_seasons lab))
      /\ (req_storage = "" \/ contains_ci (lab_storage lab) req_storage).
Proof.
  unfold passes_filter.
  pose proof (mem_lower_tokens test_name (get_str (Lab.supported_tests lab) ""))
    as Hsup.
  fold (supported lab) in Hsup.
  pose proof (mem_In "all" (lab_seasons lab)) as Hall.
  pose proof (mem_In season (lab_seasons lab)) as Hsea.
  pose proof (mem_lower_map req_storage (lab_storage lab)) as Hsto.
  pose proof (truthy_false req_storage) as Hreq.
  destruct (Str.mem (Str.lower test_name) (supported lab)),
    (Str.mem "all" (lab_seasons lab)), (Str.mem season (lab_seasons lab)),
    (Str.truthy req_storage),
    (Str.mem (Str.lower req_storage) (map Str.lower (lab_storage lab)));
    simpl; intuition congruence.
Qed.

Lemma lookup_test_found (tests : list Test.t) (name : string) (test : Test.t) :
  lookup_test tests name = Some test ->
  In test tests /\ Str.lower (Test.test_name test) = Str.lower name.
Proof.
  unfold lookup_test. intros H. apply find_some in H.
  destruct H as [Hin E]. apply String.eqb_eq in E. now split.
Qed.

Lemma lookup_test_none (tests : list Test.t) (name : string) :
  lookup_test tests name = None
  <-> forall row, In row tests ->
        Str.lower (Test.test_name row) <> Str.lower name.
Proof.
  unfold lookup_test. split.
  - intros H row Hin E.
    apply (find_none _ _ H) in Hin. apply String.eqb_neq in Hin. auto.
  - intros H. induction tests as [|row rest IH]; simpl; [reflexivity|].
    destruct (String.eqb_spec (Str.lower (Test.test_name row)) (Str.lower name))
      as [E|_].
    + exfalso. apply (H row); [now left | exact E].
    + apply IH. intros r Hr. apply H. now right.
Qed.

Lemma app_one_neq {A : Type} (xs : list A) (x : A) : xs ++ [x] <> xs.
Proof.
  intros E. apply (f_equal (@List.length A)) in E.
  rewrite length_app in E. simpl in E. lia.
Qed.

(** The loop body over the labs: a lab that fails a guard is skipped, any
    other lab has its finish date computed and is appended. *)
Lemma candidates_body_filter (name : string) (duration : Z)
      (req season : string) (day deadline : Date.t)
      (cands : list candidate) (lab : Lab.t) :
  candidates_body name duration req season day deadline cands lab
  = if passes_filter name req season lab
    then delta <- timedelta (duration + Lab.turnaround_days lab) ;;
         est_finish <- date_add day delta ;;
         Ok (cands ++ [(Lab.lab_id lab, Lab.name lab, day, est_finish,
                        deadline - est_finish, Lab.price_per_test lab)])
    else Ok cands.
Proof.
  unfold candidates_body, passes_filter.
  destruct (negb (Str.mem (Str.lower name) (supported lab))); [reflexivity|].
  destruct (negb (Str.mem "all" (lab_seasons lab))
            && negb (Str.mem season (lab_seasons lab))); [reflexivity|].
  destruct (Str.truthy req
            && negb (Str.mem (Str.lower req) (map Str.lower (lab_storage lab))));
    reflexivity.
Qed.

(** For the row found for a required name, the guards test the conditions
    of the specification. *)
Lemma passes_filter_Eligible (tests : list Test.t) (name : string)
      (test : Test.t) (lab : Lab.t) (season : string) :
  lookup_test tests name = Some test ->
  passes_filter name (req_storage_of test) season lab = true
  <-> Eligible test lab season.
Proof.
  intros Hfind. apply lookup_test_found in Hfind. destruct Hfind as [_ Hname].
  rewrite passes_filter_iff. unfold Eligible.
  rewrite (contains_ci_lower _ _ (supported lab) Hname). tauto.
Qed.

(** The loop over the labs leaves the candidates as they are exactly for a
    lab that fails a guard. *)
Lemma candidates_body_skips (name : string) (duration : Z)
      (req season : string) (day deadline : Date.t)
      (cands : list candidate) (lab : Lab.t) :
  candidates_body name duration req season day deadline cands lab = Ok cands
  <-> passes_filter name req season lab = false.
Proof.
  rewrite candidates_body_filter.
  destruct (passes_filter name req season lab).
  - split; [|discriminate].
    destruct (timedelta _) as [delta|e]; simpl; [|discriminate].
    destruct (date_add day delta) as [fin|e]; simpl; [|discriminate].
    intros E. injection E as E. now apply app_one_neq in E.
  - split; reflexivity.
Qed.

(** The storage requirement as the scheduler reads it, against the storage
    condition of the specification: the two agree unless the cell is NaN,
    and then the scheduler requires the lab to accept a condition called
    "nan". *)
Lemma storage_text_and_cell (test : Test.t) (lab : Lab.t) :
  (Test.required_storage_condition test <> NaN ->
   (req_storage_of test = ""
    \/ contains_ci (lab_storage lab) (req_storage_of test))
   <-> storage_condition_met test lab)
  /\ (Test.required_storage_condition test = NaN ->
      (req_storage_of test = ""
       \/ contains_ci (lab_storage lab) (req_storage_of test))
      <-> storage_condition_met test lab
          /\ contains_ci (lab_storage lab) "nan").
Proof.
  unfold req_storage_of, storage_condition_met.
  destruct (Test.required_storage_condition test) as [| |s]; simpl; split;
    intros H; try congruence; try tauto.
  split; [intros [E|E]; [discriminate | now split] | intros [_ E]; now right].
Qed.

(** C1. For the test row found for a required name, a lab and a season, the
    three guards of the loop over the labs are set against the constraint
    filter of the specification, read on the row of the test. When the cell
    of [required_storage_condition] is not NaN the two agree: the lab passes
    the guards, and so is not skipped, exactly when (1) its supported tests
    contain the test's name without regard to case, (2) its seasons contain
    ["all"] or the season, and (3) the test requires no storage condition or
    the lab's storage conditions contain the required one as a token,
    without regard to case. When the cell is empty and pandas holds it as
    NaN, they do not: the scheduler reads the requirement "nan", and a lab
    passes only if it is eligible and accepts a storage condition of that
    name as well. *)
Theorem eligibility_by_cell
        (tests : list Test.t) (name : string) (test : Test.t)
        (lab : Lab.t) (season : string) (day deadline : Date.t)
        (cands : list candidate) :
  lookup_test tests name = Some test ->
  (Test.required_storage_condition test <> NaN ->
   (passes_filter name (req_storage_of test) season lab = true
    <-> SpecEligible test lab season)
   /\ (candidates_body name (Test.duration_days test) (req_storage_of test)
                       season day deadline cands lab = Ok cands
       <-> ~ SpecEligible test lab season))
  /\ (Test.required_storage_condition test = NaN ->
      (passes_filter name (req_storage_of test) season lab = true
       <-> SpecEligible test lab season
           /\ contains_ci (lab_storage lab) "nan")
      /\ (candidates_body name (Test.duration_days test) (req_storage_of test)
                          season day deadline cands lab = Ok cands
          <-> ~ (SpecEligible test lab season
                 /\ contains_ci (lab_storage lab) "nan"))).
Proof.
  intros Hfind.
  pose proof (passes_filter_Eligible tests name test lab season Hfind) as Hiff.
  destruct (storage_text_and_cell test lab) as [Htext Hnan].
  rewrite candidates_body_skips.
  unfold Eligible in Hiff. unfold SpecEligible.
  split; intros Hcell.
  - specialize (Htext Hcell).
    assert (H : passes_filter name (req_storage_of test) season lab = true
                <-> contains_ci (supported lab) (Test.test_name test)
                    /\ (In "all" (lab_seasons lab) \/ In season (lab_seasons lab))
                    /\ storage_condition_met test lab) by tauto.
    split; [exact H|]. rewrite <- H.
    destruct (passes_filter name (req_storage_of test) season lab);
      split; congruence.
  - specialize (Hnan Hcell).
    assert (H : passes_filter name (req_storage_of test) season lab = true
                <-> (contains_ci (supported lab) (Test.test_name test)
                     /\ (In "all" (lab_seasons lab)
                         \/ In season (lab_seasons lab))
                     /\ storage_condition_met test lab)
                    /\ contains_ci (lab_storage lab) "nan") by tauto.
    split; [exact H|]. rewrite <- H.
    destruct (passes_filter name (req_storage_of test) season lab);
      split; congruence.
Qed.

(** Residue with an empty storage cell asks nothing of Lab A, which supports
    it all year; the scheduler all the same skips Lab A, which accepts "+4C"
    and "-20C" and nothing called "nan", and finds no lab for the test. *)
Lemma eligibility_by_cell_witness :
  SpecEligible Sample2.unconstrained Sample.lab_a "winter"
  /\ candidates_body "Residue" 3 (req_storage_of Sample2.unconstrained)
                     "winter" 738895 738925 [] Sample.lab_a = Ok []
  /\ schedule_for_contract [Sample.lab_a] [Sample2.unconstrained]
                           Sample2.unconstrained_contract
     = Ok [mkAssignment "Residue" "no suitable lab found" None].
Proof.
  destruct (eligibility_by_cell [Sample2.unconstrained] "Residue"
              Sample2.unconstrained Sample.lab_a "winter" 738895 738925 []
              eq_refl) as [_ Hnan].
  destruct (Hnan eq_refl) as [_ Hskip].
  split; [|split].
  - split; [|split].
    + exists "residue". split; [vm_compute; auto | reflexivity].
    + left. vm_compute. auto.
    + exact I.
  - apply Hskip. intros [_ (tok & Hin & E)].
    vm_compute in Hin. destruct Hin as [<-|[<-|[]]]; discriminate E.
  - vm_compute. reflexivity.
Defined.

(** ** Candidate ranker *)

Lemma float_lt_iff (a b : Q) : float_lt a b = true <-> (a < b)%Q.
Proof.
  unfold float_lt. rewrite Qlt_alt.
  destruct (a ?= b)%Q; split; congruence.
Qed.

Lemma key_lt_false (x y : candidate) : key_lt y x = false <-> key_le x y.
Proof.
  unfold key_lt, key_le.
  destruct (Z.eqb_spec (cand_finish y) (cand_finish x)) as [E|N]; simpl.
  - destruct (Qeq_bool (cand_price y) (cand_price x)) eqn:Ep; simpl.
    + apply Qeq_bool_iff in Ep. split; [|reflexivity].
      intros _. right. split; [congruence | rewrite Ep; apply Qle_refl].
    + split.
      * intros H. right. split; [congruence|].
        apply Qnot_lt_le. intros Hlt. apply float_lt_iff in Hlt. congruence.
      * intros [H|[_ H]]; [lia|].
        destruct (float_lt (cand_price y) (cand_price x)) eqn:F;
          [|reflexivity].
        apply float_lt_iff in F. exfalso. now apply (Qlt_not_le _ _ F).
  - rewrite Z.ltb_ge. split; [intros H; left; lia | intros [H|[H _]]; lia].
Qed.

Lemma key_lt_true (x y : candidate) : key_lt x y = true -> key_le x y.
Proof.
  unfold key_lt, key_le.
  destruct (Z.eqb_spec (cand_finish x) (cand_finish y)) as [E|N]; simpl.
  - destruct (Qeq_bool (cand_price x) (cand_price y)); simpl; [discriminate|].
    intros H. apply float_lt_iff in H. right. split; [exact E|].
    now apply Qlt_le_weak.
  - rewrite Z.ltb_lt. now left.
Qed.

Lemma key_le_refl (x : candidate) : key_le x x.
Proof. right. split; [reflexivity | apply Qle_refl]. Qed.

Lemma key_le_trans (x y z : candidate) : key_le x y -> key_le y z -> key_le x z.
Proof.
  unfold key_le. intros [A|[A A']] [B|[B B']].
  - left. lia.
  - left. lia.
  - left. lia.
  - right. split; [lia | eapply Qle_trans; eassumption].
Qed.

Lemma insert_sorted_perm (x : candidate) (ys : list candidate) :
  Permutation (insert_sorted x ys) (x :: ys).
Proof.
  induction ys as [|y ys IH]; simpl; [apply Permutation_refl|].
  destruct (key_lt y x); [|apply Permutation_refl].
  eapply perm_trans; [apply perm_skip, IH | apply perm_swap].
Qed.

(** [sorted] rearranges its argument ... *)
Lemma sorted_perm (xs : list candidate) : Permutation (sorted xs) xs.
Proof.
  induction xs as [|x xs IH]; simpl; [apply perm_nil|].
  eapply perm_trans; [apply insert_sorted_perm | now apply perm_skip].
Qed.

Lemma insert_sorted_Forall (P : candidate -> Prop) (x : candidate)
      (ys : list candidate) :
  P x -> Forall P ys -> Forall P (insert_sorted x ys).
Proof.
  intros Hx Hys. eapply Permutation_Forall.
  - apply Permutation_sym, insert_sorted_perm.
  - now constructor.
Qed.

Lemma insert_sorted_sorted (x : candidate) (ys : list candidate) :
  StronglySorted key_le ys -> StronglySorted key_le (insert_sorted x ys).
Proof.
  induction 1 as [|y ys Hs IH Hy]; simpl.
  - repeat constructor.
  - destruct (key_lt y x) eqn:E.
    + constructor; [exact IH|].
      apply insert_sorted_Forall; [now apply key_lt_true | exact Hy].
    + apply key_lt_false in E. constructor; [now constructor|].
      constructor; [exact E|].
      eapply Forall_impl; [|exact Hy]. intros z Hz.
      eapply key_le_trans; eassumption.
Qed.

(** ... into ascending order of (finish date, price). *)
Lemma sorted_sorted (xs : list candidate) : StronglySorted key_le (sorted xs).
Proof.
  induction xs as [|x xs IH]; simpl; [constructor|].
  now apply insert_sorted_sorted.
Qed.

(** The first element of the sorted list is one of the candidates and no
    candidate comes before it. *)
Lemma sorted_head (xs : list candidate) (x : candidate) (rest : list candidate) :
  sorted xs = x :: rest ->
  In x xs /\ forall y, In y xs -> key_le x y.
Proof.
  intros E. pose proof (sorted_perm xs) as Hp.
  pose proof (sorted_sorted xs) as Hs. rewrite E in Hp, Hs.
  split.
  - eapply Permutation_in; [exact Hp | now left].
  - intros y Hy. apply (Permutation_in _ (Permutation_sym Hp)) in Hy.
    destruct Hy as [<-|Hy]; [apply key_le_refl|].
    apply StronglySorted_inv in Hs. destruct Hs as [_ Hall].
    rewrite Forall_forall in Hall. now apply Hall.
Qed.

Lemma sorted_nil (xs : list candidate) : sorted xs = [] -> xs = [].
Proof.
  intros E. pose proof (sorted_perm xs) as Hp. rewrite E in Hp.
  now apply Permutation_nil in Hp.
Qed.

(** ** The two loops *)

Lemma bind_Ok {A B : Type} (r : result A) (k : A -> result B) (b : B) :
  bind r k = Ok b -> exists a, r = Ok a /\ k a = Ok b.
Proof. destruct r as [a|e]; simpl; [eauto | discriminate]. Qed.

Lemma timedelta_Ok (days delta : Z) :
  timedelta days = Ok delta -> delta = days /\ Z.abs days <= 999999999.
Proof.
  unfold timedelta. destruct (Z.leb_spec (Z.abs days) 999999999);
    [|discriminate].
  intros E. injection E as <-. now split.
Qed.

Lemma date_add_Ok (d delta o : Z) :
  date_add d delta = Ok o -> o = d + delta /\ 0 < o <= Date.MAXORDINAL.
Proof.
  unfold date_add.
  destruct (Z.ltb_spec 0 (d + delta)), (Z.leb_spec (d + delta) Date.MAXORDINAL);
    simpl; try discriminate.
  intros E. injection E as <-. lia.
Qed.

Lemma for_each_app {S A : Type} (body : S -> A -> result S)
      (xs ys : list A) (s : S) :
  for_each body (xs ++ ys) s = s' <- for_each body xs s ;; for_each body ys s'.
Proof.
  revert s. induction xs as [|x xs IH]; intros s; simpl; [reflexivity|].
  destruct (body s x) as [s1|e]; simpl; [apply IH | reflexivity].
Qed.

(** When the loop over the labs ends without an exception, the candidates
    are the labs that pass the filter, in the order of the table. *)
Lemma candidates_loop (name : string) (duration : Z) (req season : string)
      (day deadline : Date.t) (labs : list Lab.t) (acc cs : list candidate) :
  for_each (candidates_body name duration req season day deadline) labs acc
  = Ok cs ->
  cs = acc ++ map (candidate_of duration day deadline)
                  (filter (passes_filter name req season) labs).
Proof.
  revert acc. induction labs as [|lab labs IH]; intros acc; simpl.
  - intros E. injection E as <-. now rewrite app_nil_r.
  - rewrite candidates_body_filter.
    destruct (passes_filter name req season lab); simpl; [|apply IH].
    intros H. apply bind_Ok in H. destruct H as (acc' & Hb & H).
    apply bind_Ok in Hb. destruct Hb as (delta & Hd & Hb).
    apply bind_Ok in Hb. destruct Hb as (fin & Hf & Hb).
    apply timedelta_Ok in Hd. destruct Hd as [-> _].
    apply date_add_Ok in Hf. destruct Hf as [-> _].
    injection Hb as <-. apply IH in H. rewrite <- app_assoc in H. exact H.
Qed.

(** One iteration over a required test appends one assignment, and that
    assignment and the next timeline value are as [outcome] says. *)
Lemma schedule_body_outcome (labs : list Lab.t) (tests : list Test.t)
      (season : string) (deadline : Date.t) (st st' : loop_state)
      (name : string) :
  schedule_body labs tests season deadline st name = Ok st' ->
  exists a,
    assignments st' = assignments st ++ [a]
    /\ test_name a = name
    /\ outcome labs tests season deadline name
               (day_of_sample st) a (day_of_sample st').
Proof.
  unfold schedule_body.
  destruct (lookup_test tests name) as [test|] eqn:Hfind.
  - intros H. apply bind_Ok in H. destruct H as (cs & Hcs & H).
    apply candidates_loop in Hcs. simpl in Hcs.
    destruct cs as [|c cs'].
    + injection H as <-. eexists. repeat split; simpl.
      apply (out_no_lab _ _ _ _ _ _ test); [exact Hfind|].
      intros lab Hin.
      destruct (passes_filter name (req_storage_of test) season lab) eqn:Hp;
        [|reflexivity].
      assert (Hf : In lab (filter (passes_filter name (req_storage_of test) season)
                                  labs))
        by (apply filter_In; now split).
      apply (in_map (candidate_of (Test.duration_days test) (day_of_sample st)
                                  deadline)) in Hf.
      rewrite <- Hcs in Hf. destruct Hf.
    + destruct (sorted (c :: cs')) as [|chosen rest] eqn:Hs; [discriminate|].
      apply sorted_head in Hs. destruct Hs as [Hin Hmin].
      rewrite Hcs in Hin, Hmin. apply in_map_iff in Hin.
      destruct Hin as (lab & <- & Hlab). apply filter_In in Hlab.
      destruct Hlab as [Hlab Hpass].
      injection H as <-. eexists. split; [reflexivity|]. split; [reflexivity|].
      simpl.
      replace (day_of_sample st
               + (Test.duration_days test + Lab.turnaround_days lab))
        with (finish_of (day_of_sample st) test lab)
        by (unfold finish_of; lia).
      apply out_chosen; try assumption.
      intros lab' Hin' Hpass'.
      assert (Hle : key_le (candidate_of (Test.duration_days test)
                                         (day_of_sample st) deadline lab)
                           (candidate_of (Test.duration_days test)
                                         (day_of_sample st) deadline lab')).
      { apply Hmin, in_map, filter_In. now split. }
      unfold key_le in Hle. simpl in Hle. unfold ranks_before, finish_of.
      destruct Hle as [Hlt|[Heq Hpr]]; split; try lia; intros; tauto || lia.
  - intros H. injection H as <-. eexists. repeat split; simpl.
    now apply out_not_found.
Qed.

Lemma outcome_test_name labs tests season deadline name day a day' :
  outcome labs tests season deadline name day a day' -> test_name a = name.
Proof. destruct 1; reflexivity. Qed.

(** The loop over the required tests only ever appends, one assignment per
    name and in the order of the names. *)
Lemma schedule_loop_appends (labs : list Lab.t) (tests : list Test.t)
      (season : string) (deadline : Date.t) (names : list string)
      (st final : loop_state) :
  for_each (schedule_body labs tests season deadline) names st = Ok final ->
  exists more,
    assignments final = assignments st ++ more
    /\ map test_name more = names.
Proof.
  revert st. induction names as [|name names IH]; intros st; simpl.
  - intros E. injection E as <-. exists []. now rewrite app_nil_r.
  - intros H. apply bind_Ok in H. destruct H as (st1 & Hb & H).
    apply schedule_body_outcome in Hb. destruct Hb as (a & Ha & Hn & _).
    apply IH in H. destruct H as (more & Hm & Hnames).
    exists (a :: more). split.
    + rewrite Hm, Ha, <- app_assoc. reflexivity.
    + simpl. now rewrite Hn, Hnames.
Qed.

Lemma firstn_prefix {A : Type} (l1 l2 : list A) :
  firstn (List.length l1) (l1 ++ l2) = l1.
Proof. induction l1 as [|x l1 IH]; simpl; [now destruct l2 | now rewrite IH]. Qed.

Lemma firstn_prefix_S {A : Type} (l1 l2 : list A) (x : A) :
  firstn (S (List.length l1)) (l1 ++ x :: l2) = l1 ++ [x].
Proof.
  induction l1 as [|y l1 IH]; simpl; [now destruct l2|].
  simpl in IH. now rewrite IH.
Qed.

Lemma nth_error_middle {A : Type} (l1 l2 : list A) (x : A) :
  nth_error (l1 ++ x :: l2) (List.length l1) = Some x.
Proof. induction l1 as [|y l1 IH]; simpl; [reflexivity | exact IH]. Qed.

(** The schedule is what the loop leaves in [assignments]. *)
Lemma schedule_run (labs : list Lab.t) (tests : list Test.t) (c : Contract.t)
      (sch : list assignment) :
  schedule_for_contract labs tests c = Ok sch ->
  exists final,
    for_each (schedule_body labs tests (season_of c)
                            (Contract.contract_deadline c))
             (required_tests c)
             (mkState [] (Contract.sample_collection_date c)) = Ok final
    /\ assignments final = sch.
Proof.
  unfold schedule_for_contract. intros H. apply bind_Ok in H.
  destruct H as (final & Hrun & H). injection H as <-.
  exists final. split; [exact Hrun | reflexivity].
Qed.

(** Entry [i] of the schedule is the outcome of iteration [i]: of the
    required test [i], begun with the loop variables [state_at i] and left
    with [state_at (i + 1)], under the season and the deadline of the
    contract. *)
Lemma schedule_entry (labs : list Lab.t) (tests : list Test.t) (c : Contract.t)
      (sch : list assignment) (i : nat) (a : assignment) :
  schedule_for_contract labs tests c = Ok sch ->
  nth_error sch i = Some a ->
  exists name st st',
    nth_error (required_tests c) i = Some name
    /\ state_at labs tests c i = Ok st
    /\ state_at labs tests c (S i) = Ok st'
    /\ outcome labs tests (season_of c) (Contract.contract_deadline c)
               name (day_of_sample st) a (day_of_sample st').
Proof.
  intros Hrun Hnth. apply schedule_run in Hrun.
  destruct Hrun as (final & Hrun & <-).
  pose proof (schedule_loop_appends _ _ _ _ _ _ _ Hrun) as (more & Hmore & Hnames).
  simpl in Hmore.
  assert (Hname : exists name, nth_error (required_tests c) i = Some name).
  { rewrite <- Hnames, nth_error_map, <- Hmore, Hnth. simpl. eauto. }
  destruct Hname as (name & Hname).
  destruct (nth_error_split _ _ Hname) as (l1 & l2 & Hsplit & Hlen).
  unfold state_at. rewrite Hsplit in Hrun |- *. subst i.
  rewrite firstn_prefix, firstn_prefix_S.
  rewrite for_each_app in Hrun. apply bind_Ok in Hrun.
  destruct Hrun as (st & Hst & Hrun). simpl in Hrun.
  apply bind_Ok in Hrun. destruct Hrun as (st' & Hbody & Hrest).
  exists name, st, st'. split; [now rewrite nth_error_middle|].
  split; [exact Hst|]. split.
  { rewrite for_each_app, Hst. simpl. now rewrite Hbody. }
  pose proof (schedule_body_outcome _ _ _ _ _ _ _ Hbody) as (a' & Ha' & _ & Hout).
  pose proof (schedule_loop_appends _ _ _ _ _ _ _ Hst) as (m1 & Hm1 & Hn1).
  pose proof (schedule_loop_appends _ _ _ _ _ _ _ Hrest) as (m2 & Hm2 & _).
  simpl in Hm1. rewrite Hm2, Ha', Hm1, <- app_assoc in Hnth. simpl in Hnth.
  assert (Hl : List.length l1 = List.length m1)
    by (now rewrite <- Hn1, length_map).
  rewrite Hl, nth_error_middle in Hnth. injection Hnth as <-. exact Hout.
Qed.

(** Every assignment of the schedule sits at some index. *)
Lemma schedule_member (labs : list Lab.t) (tests : list Test.t) (c : Contract.t)
      (sch : list assignment) (a : assignment) :
  schedule_for_contract labs tests c = Ok sch ->
  In a sch ->
  exists name st st',
    In name (required_tests c)
    /\ outcome labs tests (season_of c) (Contract.contract_deadline c)
               name (day_of_sample st) a (day_of_sample st').
Proof.
  intros Hrun Hin. apply In_nth_error in Hin. destruct Hin as (i & Hi).
  destruct (schedule_entry _ _ _ _ _ _ Hrun Hi) as (name & st & st' & Hn & _ & _ & H).
  exists name, st, st'. split; [eapply nth_error_In, Hn | exact H].
Qed.

(** ** Sequential scheduler *)

Lemma outcome_resolved labs tests season deadline name day a day' :
  outcome labs tests season deadline name day a day' ->
  (resolved a <-> placed a <> None).
Proof.
  unfold resolved. intros Hout. destruct Hout; simpl.
  - split; [intros [E|E]; discriminate E | congruence].
  - split; [intros [E|E]; discriminate E | congruence].
  - split; [discriminate|]. intros _.
    destruct (0 <=? deadline - finish_of day test lab); [now left | now right].
Qed.

(** What a placement records, read off the outcome that produced it. *)
Lemma outcome_placed labs tests season deadline name day a day' p :
  outcome labs tests season deadline name day a day' ->
  placed a = Some p ->
  exists test lab,
    lookup_test tests name = Some test
    /\ In lab labs
    /\ Eligible test lab season
    /\ (forall lab', In lab' labs -> Eligible test lab' season ->
                     ranks_before day test lab lab')
    /\ p = mkPlacement (Lab.lab_id lab) (Lab.name lab) day
                       (finish_of day test lab)
                       (deadline - finish_of day test lab)
                       (Lab.price_per_test lab)
    /\ status a = (if 0 <=? deadline - finish_of day test lab
                   then "scheduled" else "will miss deadline")
    /\ day' = finish_of day test lab.
Proof.
  destruct 1 as [Hfind | test Hfind Hnone | test lab Hfind Hin Hpass Hmin];
    simpl; try discriminate.
  intros E. injection E as <-. exists test, lab.
  split; [exact Hfind|]. split; [exact Hin|].
  split; [now apply (passes_filter_Eligible tests name)|].
  split; [|repeat split].
  intros lab' Hin' Hel. apply Hmin; [exact Hin'|].
  now apply (passes_filter_Eligible tests name).
Qed.

Lemma outcome_unplaced labs tests season deadline name day a day' :
  outcome labs tests season deadline name day a day' ->
  placed a = None -> day' = day.
Proof. destruct 1; simpl; [reflexivity | reflexivity | discriminate]. Qed.

(** C2. A required test whose row is found and that has at least one
    eligible lab is placed at an eligible lab; no eligible lab finishes
    earlier, and no eligible lab that finishes on the same day is cheaper. *)
Theorem selects_earliest_then_cheapest
        (labs : list Lab.t) (tests : list Test.t) (c : Contract.t)
        (sch : list assignment) (a : assignment) (test : Test.t) :
  schedule_for_contract labs tests c = Ok sch ->
  In a sch ->
  lookup_test tests (test_name a) = Some test ->
  (exists lab, In lab labs /\ Eligible test lab (season_of c)) ->
  exists lab p,
    placed a = Some p
    /\ In lab labs
    /\ Eligible test lab (season_of c)
    /\ lab_id p = Lab.lab_id lab
    /\ lab_name p = Lab.name lab
    /\ price p = Lab.price_per_test lab
    /\ finish_date p = finish_of (start_date p) test lab
    /\ forall lab', In lab' labs -> Eligible test lab' (season_of c) ->
         finish_date p <= finish_of (start_date p) test lab'
         /\ (finish_of (start_date p) test lab' = finish_date p ->
             (price p <= Lab.price_per_test lab')%Q).
Proof.
  intros Hrun Hin Hfind (lab0 & Hin0 & Hel0).
  destruct (schedule_member _ _ _ _ _ Hrun Hin) as (name & st & st' & _ & Hout).
  pose proof (outcome_test_name _ _ _ _ _ _ _ _ Hout) as Hname.
  rewrite Hname in Hfind.
  destruct (placed a) as [p|] eqn:Hp.
  - destruct (outcome_placed _ _ _ _ _ _ _ _ _ Hout Hp)
      as (test' & lab & Hfind' & Hlab & Hel & Hmin & -> & _ & _).
    assert (test' = test) by congruence. subst test'.
    exists lab. eexists. split; [reflexivity|]. simpl.
    repeat (split; [assumption || reflexivity|]).
    intros lab' Hin' Hel'. exact (Hmin lab' Hin' Hel').
  - exfalso. destruct Hout as [Hnf | t Hf Hnone | t l Hf Hl Hpass Hmin];
      simpl in Hp; try discriminate; try congruence.
    assert (t = test) by congruence. subst t.
    apply (passes_filter_Eligible tests name) in Hel0; [|exact Hfind].
    rewrite (Hnone lab0 Hin0) in Hel0. discriminate.
Qed.

(** C4. A resolved assignment finishes [duration_days] of its test plus
    [turnaround_days] of its lab after it starts. *)
Theorem finish_is_start_plus_duration_plus_turnaround
        (labs : list Lab.t) (tests : list Test.t) (c : Contract.t)
        (sch : list assignment) (a : assignment) (p : placement) :
  schedule_for_contract labs tests c = Ok sch ->
  In a sch ->
  placed a = Some p ->
  exists test lab,
    lookup_test tests (test_name a) = Some test
    /\ In lab labs
    /\ lab_id p = Lab.lab_id lab
    /\ lab_name p = Lab.name lab
    /\ finish_date p
       = start_date p + Test.duration_days test + Lab.turnaround_days lab.
Proof.
  intros Hrun Hin Hp.
  destruct (schedule_member _ _ _ _ _ Hrun Hin) as (name & st & st' & _ & Hout).
  pose proof (outcome_test_name _ _ _ _ _ _ _ _ Hout) as Hname.
  destruct (outcome_placed _ _ _ _ _ _ _ _ _ Hout Hp)
    as (test & lab & Hfind & Hlab & _ & _ & -> & _ & _).
  exists test, lab. rewrite Hname. simpl. unfold finish_of. tauto.
Qed.

(** C5. A resolved assignment records the days from its finish date to the
    contract deadline; it is "scheduled" when that number is not negative
    and "will miss deadline" when it is. *)
Theorem deadline_margin_and_status
        (labs : list Lab.t) (tests : list Test.t) (c : Contract.t)
        (sch : list assignment) (a : assignment) (p : placement) :
  schedule_for_contract labs tests c = Ok sch ->
  In a sch ->
  placed a = Some p ->
  days_before_deadline p = Contract.contract_deadline c - finish_date p
  /\ (0 <= days_before_deadline p -> status a = "scheduled")
  /\ (days_before_deadline p < 0 -> status a = "will miss deadline").
Proof.
  intros Hrun Hin Hp.
  destruct (schedule_member _ _ _ _ _ Hrun Hin) as (name & st & st' & _ & Hout).
  destruct (outcome_placed _ _ _ _ _ _ _ _ _ Hout Hp)
    as (test & lab & _ & _ & _ & _ & -> & Hst & _).
  simpl. rewrite Hst. split; [reflexivity|].
  destruct (Z.leb_spec 0 (Contract.contract_deadline c
                          - finish_of (day_of_sample st) test lab));
    split; intros; (reflexivity || lia).
Qed.

Lemma outcome_not_found labs tests season deadline name day a day' :
  outcome labs tests season deadline name day a day' ->
  lookup_test tests name = None ->
  a = mkAssignment name "test not found in tests.xlsx" None /\ day' = day.
Proof. destruct 1; intros Hnone; (now split) || congruence. Qed.

(** C3. For consecutive assignments [a] (entry [i]) and [b] (entry [i+1]):
    the timeline value that iteration [i+1] starts from is the finish date
    of [a] when [a] resolved to a lab, and it is the value iteration [i]
    started from when [a] did not resolve; the start date of [b], when [b]
    has one, is that timeline value. *)
Theorem timeline_chaining
        (labs : list Lab.t) (tests : list Test.t) (c : Contract.t)
        (sch : list assignment) (i : nat) (a b : assignment) :
  schedule_for_contract labs tests c = Ok sch ->
  nth_error sch i = Some a ->
  nth_error sch (S i) = Some b ->
  exists st st',
    state_at labs tests c i = Ok st
    /\ state_at labs tests c (S i) = Ok st'
    /\ (resolved a ->
        exists p, placed a = Some p
                  /\ day_of_sample st' = finish_date p
                  /\ forall q, placed b = Some q ->
                               start_date q = finish_date p)
    /\ (~ resolved a ->
        placed a = None
        /\ day_of_sample st' = day_of_sample st
        /\ forall q, placed b = Some q -> start_date q = day_of_sample st).
Proof.
  intros Hrun Ha Hb.
  destruct (schedule_entry _ _ _ _ _ _ Hrun Ha)
    as (name & st & st' & _ & Hst & Hst' & Hout).
  destruct (schedule_entry _ _ _ _ _ _ Hrun Hb)
    as (name2 & st2 & st3 & _ & Hst2 & _ & Hout2).
  rewrite Hst' in Hst2. injection Hst2 as <-.
  exists st, st'. split; [exact Hst|]. split; [exact Hst'|].
  assert (Hstart : forall q, placed b = Some q ->
                             start_date q = day_of_sample st').
  { intros q Hq.
    destruct (outcome_placed _ _ _ _ _ _ _ _ _ Hout2 Hq)
      as (t & l & _ & _ & _ & _ & -> & _). reflexivity. }
  pose proof (outcome_resolved _ _ _ _ _ _ _ _ Hout) as Hres.
  split.
  - intros Hr. apply Hres in Hr.
    destruct (placed a) as [p|] eqn:Hp; [|congruence].
    destruct (outcome_placed _ _ _ _ _ _ _ _ _ Hout Hp)
      as (t & l & _ & _ & _ & _ & Hpeq & _ & Hday).
    exists p. split; [reflexivity|].
    assert (Hfin : day_of_sample st' = finish_date p)
      by (rewrite Hpeq; exact Hday).
    split; [exact Hfin|]. intros q Hq. rewrite <- Hfin. now apply Hstart.
  - intros Hn.
    destruct (placed a) as [p|] eqn:Hp.
    + exfalso. apply Hn, Hres. discriminate.
    + pose proof (outcome_unplaced _ _ _ _ _ _ _ _ Hout Hp) as Hday.
      split; [reflexivity|]. split; [exact Hday|].
      intros q Hq. rewrite <- Hday. now apply Hstart.
Qed.

(** C8, as the code has it. A required test name that no row of the Tests
    table matches (names compared lower-cased) gets, at its place in the
    schedule, the assignment with status "test not found in tests.xlsx" and
    no lab, price or date; the timeline value after that iteration is the one
    before it; and the schedule still has an assignment for every required
    test. *)
Theorem unknown_test_is_reported
        (labs : list Lab.t) (tests : list Test.t) (c : Contract.t)
        (sch : list assignment) (i : nat) (name : string) :
  schedule_for_contract labs tests c = Ok sch ->
  nth_error (required_tests c) i = Some name ->
  (forall row, In row tests ->
               Str.lower (Test.test_name row) <> Str.lower name) ->
  nth_error sch i
  = Some (mkAssignment name "test not found in tests.xlsx" None)
  /\ (exists st st',
        state_at labs tests c i = Ok st
        /\ state_at labs tests c (S i) = Ok st'
        /\ day_of_sample st' = day_of_sample st)
  /\ map test_name sch = required_tests c.
Proof.
  intros Hrun Hname Habsent. apply lookup_test_none in Habsent.
  destruct (schedule_run _ _ _ _ Hrun) as (final & Hloop & Hfinal).
  apply schedule_loop_appends in Hloop.
  destruct Hloop as (more & Hmore & Hnames). simpl in Hmore.
  assert (Hsch : map test_name sch = required_tests c) by congruence.
  assert (Ha : exists a, nth_error sch i = Some a).
  { destruct (nth_error sch i) as [a|] eqn:E; [eauto|].
    rewrite <- Hsch, nth_error_map, E in Hname. discriminate. }
  destruct Ha as (a & Ha).
  destruct (schedule_entry _ _ _ _ _ _ Hrun Ha)
    as (name' & st & st' & Hname' & Hst & Hst' & Hout).
  assert (name' = name) by congruence. subst name'.
  destruct (outcome_not_found _ _ _ _ _ _ _ _ Hout Habsent) as [-> Hday].
  split; [exact Ha|]. split; [|exact Hsch].
  exists st, st'. now repeat split.
Qed.

(** C9. The month groups of the season resolver are Dec/Jan/Feb, Mar/Apr/May,
    Jun/Jul/Aug and Sep/Oct/Nov; and every iteration of the scheduler,
    whatever day its timeline has reached, filters the labs under the season
    of the month of the contract's [sample_collection_date]: a resolved
    assignment starts on the day the timeline has reached, at a lab that is
    eligible under that one season. *)
Theorem season_resolved_once :
  (forall m,
      (m = 12 \/ m = 1 \/ m = 2 -> months_to_season m = "winter")
      /\ (m = 3 \/ m = 4 \/ m = 5 -> months_to_season m = "spring")
      /\ (m = 6 \/ m = 7 \/ m = 8 -> months_to_season m = "summer")
      /\ (m = 9 \/ m = 10 \/ m = 11 -> months_to_season m = "autumn"))
  /\ (forall labs tests c sch i a,
         schedule_for_contract labs tests c = Ok sch ->
         nth_error sch i = Some a ->
         let season :=
           months_to_season (Date.month (Contract.sample_collection_date c)) in
         exists name st st',
           nth_error (required_tests c) i = Some name
           /\ state_at labs tests c i = Ok st
           /\ state_at labs tests c (S i) = Ok st'
           /\ outcome labs tests season (Contract.contract_deadline c)
                      name (day_of_sample st) a (day_of_sample st')
           /\ forall p, placed a = Some p ->
                start_date p = day_of_sample st
                /\ exists test lab,
                     lookup_test tests name = Some test
                     /\ In lab labs
                     /\ lab_id p = Lab.lab_id lab
                     /\ Eligible test lab season).
Proof.
  split.
  - intros m. repeat split; intros H;
      repeat (destruct H as [H|H]); subst m; reflexivity.
  - intros labs tests c sch i a Hrun Ha season.
    destruct (schedule_entry _ _ _ _ _ _ Hrun Ha)
      as (name & st & st' & Hname & Hst & Hst' & Hout).
    exists name, st, st'. repeat (split; [assumption|]).
    intros p Hp.
    destruct (outcome_placed _ _ _ _ _ _ _ _ _ Hout Hp)
      as (test & lab & Hfind & Hlab & Hel & _ & -> & _).
    split; [reflexivity|]. exists test, lab.
    split; [exact Hfind|]. split; [exact Hlab|]. split; [reflexivity|].
    exact Hel.
Qed.

(** ** Cost and risk summarizer *)



Lemma has_price_column_prices (sch : list assignment) :
  has_price_column (without_status "will miss deadline" sch) = false ->
  forall x, In x (prices_with_status "scheduled" sch) -> x = None.
Proof.
  induction sch as [|a sch IH]; simpl; [intros _ x []|].
  destruct (String.eqb_spec (status a) "will miss deadline") as [E|N]; simpl.
  - rewrite E. simpl. exact IH.
  - destruct (placed a) as [p|] eqn:Hp; simpl; [discriminate|].
    intros H x. destruct (String.eqb (status a) "scheduled"); [|now apply IH].
    intros [<-|Hx]; [reflexivity | now apply IH].
Qed.


Lemma rows_with_status_count (s : string) (sch : list assignment) :
  List.length (rows_with_status s sch) = count_occ string_dec (map status sch) s.
Proof.
  induction sch as [|a sch IH]; simpl; [reflexivity|].
  destruct (String.eqb_spec (status a) s) as [E|N];
    destruct (string_dec (status a) s); try congruence; simpl; now rewrite IH.
Qed.



(** ** The scheduler returns *)

Lemma candidates_loop_returns (name : string) (duration : Z)
      (req season : string) (day deadline : Date.t) (labs : list Lab.t)
      (acc : list candidate) :
  (forall lab, In lab labs -> passes_filter name req season lab = true ->
               Z.abs (duration + Lab.turnaround_days lab) <= 999999999
               /\ 0 < day + (duration + Lab.turnaround_days lab)
                  <= Date.MAXORDINAL) ->
  for_each (candidates_body name duration req season day deadline) labs acc
  = Ok (acc ++ map (candidate_of duration day deadline)
                   (filter (passes_filter name req season) labs)).
Proof.
  revert acc. induction labs as [|lab labs IH]; intros acc Hrange; simpl.
  - now rewrite app_nil_r.
  - rewrite candidates_body_filter.
    destruct (passes_filter name req season lab) eqn:Hp; simpl.
    + destruct (Hrange lab (or_introl eq_refl) Hp) as [Habs Hord].
      unfold timedelta, date_add.
      destruct (Z.leb_spec (Z.abs (duration + Lab.turnaround_days lab))
                           999999999); [|lia].
      simpl.
      destruct (Z.ltb_spec 0 (day + (duration + Lab.turnaround_days lab)));
        [|lia].
      destruct (Z.leb_spec (day + (duration + Lab.turnaround_days lab))
                           Date.MAXORDINAL); [|lia].
      simpl. rewrite IH by (intros l Hl; apply Hrange; now right).
      now rewrite <- app_assoc.
    + apply IH. intros l Hl. apply Hrange. now right.
Qed.

(** With durations and turnarounds that add up to between 0 and [bound]
    days, an iteration that starts on a valid date at least [bound] days
    before the last one returns, and moves the timeline forward by at most
    [bound] days. *)
Lemma schedule_body_returns (labs : list Lab.t) (tests : list Test.t)
      (season : string) (deadline : Date.t) (bound : Z)
      (st : loop_state) (name : string) :
  0 <= bound <= 999999999 ->
  (forall test lab, In test tests -> In lab labs ->
     0 <= Test.duration_days test + Lab.turnaround_days lab <= bound) ->
  0 < day_of_sample st ->
  day_of_sample st + bound <= Date.MAXORDINAL ->
  exists st',
    schedule_body labs tests season deadline st name = Ok st'
    /\ day_of_sample st <= day_of_sample st' <= day_of_sample st + bound.
Proof.
  intros Hb Hdur Hlo Hhi. unfold schedule_body.
  destruct (lookup_test tests name) as [test|] eqn:Hfind;
    [|eexists; split; [reflexivity | simpl; lia]].
  apply lookup_test_found in Hfind. destruct Hfind as [Htest _].
  rewrite candidates_loop_returns
    by (intros lab Hlab _; specialize (Hdur test lab Htest Hlab); lia).
  simpl.
  destruct (map _ _) as [|x xs] eqn:Hcs;
    [eexists; split; [reflexivity | simpl; lia]|].
  destruct (sorted (x :: xs)) as [|chosen rest] eqn:Hs.
  - apply sorted_nil in Hs. discriminate.
  - apply sorted_head in Hs. destruct Hs as [Hin _].
    rewrite <- Hcs in Hin. apply in_map_iff in Hin.
    destruct Hin as (lab & <- & Hlab). apply filter_In in Hlab.
    destruct Hlab as [Hlab _]. specialize (Hdur test lab Htest Hlab).
    eexists. split; [reflexivity|]. simpl. lia.
Qed.

(** [schedule_for_contract] returns a schedule whenever the sample date is a
    valid date and the tests fit before the year 9999 at [bound] days each. *)
Lemma schedule_returns (labs : list Lab.t) (tests : list Test.t)
      (c : Contract.t) (bound : Z) :
  0 <= bound <= 999999999 ->
  (forall test lab, In test tests -> In lab labs ->
     0 <= Test.duration_days test + Lab.turnaround_days lab <= bound) ->
  0 < Contract.sample_collection_date c ->
  Contract.sample_collection_date c
  + bound * Z.of_nat (List.length (required_tests c)) <= Date.MAXORDINAL ->
  exists sch, schedule_for_contract labs tests c = Ok sch.
Proof.
  intros Hb Hdur Hlo Hhi. unfold schedule_for_contract.
  fold (season_of c).
  assert (Hloop : forall names st,
             0 < day_of_sample st ->
             day_of_sample st + bound * Z.of_nat (List.length names)
             <= Date.MAXORDINAL ->
             exists final,
               for_each (schedule_body labs tests (season_of c)
                                       (Contract.contract_deadline c))
                        names st = Ok final).
  { induction names as [|name names IH]; intros st H0 H1; simpl.
    - eauto.
    - simpl List.length in H1. rewrite Nat2Z.inj_succ in H1.
      destruct (schedule_body_returns labs tests (season_of c)
                  (Contract.contract_deadline c) bound st name Hb Hdur H0)
        as (st' & -> & Hday); [nia|].
      simpl. apply IH; nia. }
  destruct (Hloop (required_tests c)
                  (mkState [] (Contract.sample_collection_date c)) Hlo Hhi)
    as (final & ->).
  simpl. eauto.
Qed.

(** The one exception the scheduler can raise is [OverflowError]:
    [candidates_sorted[0]] is only reached with a candidate in the list. *)
Lemma candidates_loop_raises (name : string) (duration : Z)
      (req season : string) (day deadline : Date.t) (labs : list Lab.t)
      (acc : list candidate) (e : exn) :
  for_each (candidates_body name duration req season day deadline) labs acc
  = Raise e ->
  e = OverflowError.
Proof.
  revert acc. induction labs as [|lab labs IH]; intros acc; simpl;
    [discriminate|].
  rewrite candidates_body_filter.
  destruct (passes_filter name req season lab); simpl; [|apply IH].
  unfold timedelta, date_add.
  destruct (Z.abs (duration + Lab.turnaround_days lab) <=? 999999999); simpl;
    [|congruence].
  destruct ((0 <? day + (duration + Lab.turnaround_days lab))
            && (day + (duration + Lab.turnaround_days lab)
                <=? Date.MAXORDINAL)); simpl; [apply IH | congruence].
Qed.

Lemma schedule_body_raises (labs : list Lab.t) (tests : list Test.t)
      (season : string) (deadline : Date.t) (st : loop_state) (name : string)
      (e : exn) :
  schedule_body labs tests season deadline st name = Raise e ->
  e = OverflowError.
Proof.
  unfold schedule_body. destruct (lookup_test tests name); [|discriminate].
  destruct (for_each _ labs []) as [cs|e'] eqn:Hcs; simpl.
  - destruct cs as [|x xs]; [discriminate|].
    destruct (sorted (x :: xs)) eqn:Hs; [|discriminate].
    apply sorted_nil in Hs. discriminate.
  - apply candidates_loop_raises in Hcs. congruence.
Qed.

Lemma schedule_raises (labs : list Lab.t) (tests : list Test.t)
      (c : Contract.t) (e : exn) :
  schedule_for_contract labs tests c = Raise e -> e = OverflowError.
Proof.
  unfold schedule_for_contract.
  generalize (mkState [] (Contract.sample_collection_date c)).
  induction (required_tests c) as [|name names IH]; intros st; simpl;
    [discriminate|].
  destruct (schedule_body labs tests _ _ st name) as [st'|e'] eqn:Hb; simpl.
  - apply IH.
  - apply schedule_body_raises in Hb. congruence.
Qed.

(** C7. A returned schedule has one assignment per token of
    [required_tests], in the order of the tokens and under their names,
    whatever became of each test; and a schedule is returned whenever the
    sample date is a valid date and the required tests, at [bound] days
    each, fit before the last date of the calendar. *)
Theorem one_assignment_per_required_test
        (labs : list Lab.t) (tests : list Test.t) (c : Contract.t) :
  (forall sch,
      schedule_for_contract labs tests c = Ok sch ->
      map test_name sch = required_tests c
      /\ List.length sch = List.length (required_tests c))
  /\ (forall bound,
         0 <= bound <= 999999999 ->
         (forall test lab, In test tests -> In lab labs ->
            0 <= Test.duration_days test + Lab.turnaround_days lab <= bound) ->
         0 < Contract.sample_collection_date c ->
         Contract.sample_collection_date c
         + bound * Z.of_nat (List.length (required_tests c))
         <= Date.MAXORDINAL ->
         exists sch, schedule_for_contract labs tests c = Ok sch).
Proof.
  split.
  - intros sch Hrun. apply schedule_run in Hrun.
    destruct Hrun as (final & Hrun & <-).
    apply schedule_loop_appends in Hrun.
    destruct Hrun as (more & Hmore & Hnames).
    simpl in Hmore. rewrite Hmore.
    split; [exact Hnames | now rewrite <- Hnames, length_map].
  - intros bound. apply schedule_returns.
Qed.

(** ** The sample data, worked *)

Lemma sample_schedules :
  schedule_for_contract Sample.labs Sample.tests Sample.contract
  = Ok Sample.schedule
  /\ schedule_for_contract Sample.seasonal_labs Sample.tests Sample.drifting
     = Ok Sample.drifting_schedule
  /\ schedule_for_contract Sample.priced_labs Sample.tests Sample.contract
     = Ok Sample.priced_schedule.
Proof. repeat split; vm_compute; reflexivity. Qed.

(** Of Dear (150) and Fair (110), which both finish on day 738905, Fair is
    chosen; Slow (20) finishes two days later and is not. *)
Lemma selects_earliest_then_cheapest_witness :
  exists lab p,
    Some (mkPlacement 6 "Fair" 738895 738905 20 110) = Some p
    /\ In lab Sample.priced_labs
    /\ Eligible Sample.residue lab (season_of Sample.contract)
    /\ lab_id p = Lab.lab_id lab
    /\ lab_name p = Lab.name lab
    /\ price p = Lab.price_per_test lab
    /\ finish_date p = finish_of (start_date p) Sample.residue lab
    /\ forall lab', In lab' Sample.priced_labs ->
         Eligible Sample.residue lab' (season_of Sample.contract) ->
         finish_date p <= finish_of (start_date p) Sample.residue lab'
         /\ (finish_of (start_date p) Sample.residue lab' = finish_date p ->
             (price p <= Lab.price_per_test lab')%Q).
Proof.
  apply (selects_earliest_then_cheapest
           Sample.priced_labs Sample.tests Sample.contract
           Sample.priced_schedule
           (mkAssignment "Residue" "scheduled"
              (Some (mkPlacement 6 "Fair" 738895 738905 20 110)))
           Sample.residue).
  - vm_compute. reflexivity.
  - simpl. auto.
  - reflexivity.
  - exists Sample.lab_fair. split; [simpl; auto|].
    apply (passes_filter_Eligible Sample.tests "Residue"); reflexivity.
Defined.

(** The second test of the drifting contract starts on the day the first
    one finishes; the test after the unknown one of the sample contract
    would start on the day the unknown one was reached. *)
Lemma timeline_chaining_witness :
  (exists st st',
      state_at Sample.seasonal_labs Sample.tests Sample.drifting 0 = Ok st
      /\ state_at Sample.seasonal_labs Sample.tests Sample.drifting 1 = Ok st'
      /\ day_of_sample st = 738941
      /\ day_of_sample st' = 738951)
  /\ (exists st st',
         state_at Sample.labs Sample.tests Sample.contract 1 = Ok st
         /\ state_at Sample.labs Sample.tests Sample.contract 2 = Ok st'
         /\ day_of_sample st' = day_of_sample st).
Proof.
  split.
  - destruct (timeline_chaining
                Sample.seasonal_labs Sample.tests Sample.drifting
                Sample.drifting_schedule 0
                (mkAssignment "residue" "scheduled"
                   (Some (mkPlacement 3 "Winter lab" 738941 738951 4 90)))
                (mkAssignment "PURITY" "will miss deadline"
                   (Some (mkPlacement 3 "Winter lab" 738951 738960 (-5) 90)))
                ltac:(vm_compute; reflexivity) eq_refl eq_refl)
      as (st & st' & Hst & Hst' & Hres & _).
    exists st, st'. split; [exact Hst|]. split; [exact Hst'|].
    split.
    + vm_compute in Hst. injection Hst as <-. reflexivity.
    + destruct (Hres (or_introl eq_refl)) as (p & Hp & Hday & _).
      injection Hp as <-. exact Hday.
  - destruct (timeline_chaining
                Sample.labs Sample.tests Sample.contract Sample.schedule 1
                (mkAssignment "Ghost" "test not found in tests.xlsx" None)
                (mkAssignment "Purity" "no suitable lab found" None)
                ltac:(vm_compute; reflexivity) eq_refl eq_refl)
      as (st & st' & Hst & Hst' & _ & Hun).
    exists st, st'. split; [exact Hst|]. split; [exact Hst'|].
    apply Hun. intros [H|H]; discriminate H.
Defined.

Lemma finish_is_start_plus_duration_plus_turnaround_witness :
  exists test lab,
    lookup_test Sample.tests "PURITY" = Some test
    /\ In lab Sample.seasonal_labs
    /\ 3 = Lab.lab_id lab
    /\ "Winter lab" = Lab.name lab
    /\ 738960 = 738951 + Test.duration_days test + Lab.turnaround_days lab.
Proof.
  apply (finish_is_start_plus_duration_plus_turnaround
           Sample.seasonal_labs Sample.tests Sample.drifting
           Sample.drifting_schedule
           (mkAssignment "PURITY" "will miss deadline"
              (Some (mkPlacement 3 "Winter lab" 738951 738960 (-5) 90)))
           (mkPlacement 3 "Winter lab" 738951 738960 (-5) 90)).
  - vm_compute. reflexivity.
  - simpl. auto.
  - reflexivity.
Defined.

(** Due on 2024-03-10 (day 738955) and finished on day 738960: five days
    late. *)
Lemma deadline_margin_and_status_witness :
  -5 = Contract.contract_deadline Sample.drifting - 738960
  /\ (0 <= -5 -> "will miss deadline" = "scheduled")
  /\ (-5 < 0 -> "will miss deadline" = "will miss deadline").
Proof.
  apply (deadline_margin_and_status
           Sample.seasonal_labs Sample.tests Sample.drifting
           Sample.drifting_schedule
           (mkAssignment "PURITY" "will miss deadline"
              (Some (mkPlacement 3 "Winter lab" 738951 738960 (-5) 90)))
           (mkPlacement 3 "Winter lab" 738951 738960 (-5) 90)).
  - vm_compute. reflexivity.
  - simpl. auto.
  - reflexivity.
Defined.

Lemma one_assignment_per_required_test_witness :
  (map test_name Sample.schedule = ["Residue"; "Ghost"; "Purity"]
   /\ List.length Sample.schedule = 3%nat)
  /\ exists sch,
       schedule_for_contract Sample.labs Sample.tests Sample.contract = Ok sch.
Proof.
  destruct (one_assignment_per_required_test
              Sample.labs Sample.tests Sample.contract) as [Hshape Hreturns].
  split.
  - apply Hshape. vm_compute. reflexivity.
  - apply (Hreturns 17).
    + lia.
    + intros test lab [<-|[<-|[]]] [<-|[<-|[]]]; simpl; lia.
    + reflexivity.
    + vm_compute. discriminate.
Defined.


Lemma unknown_test_is_reported_witness :
  nth_error Sample.schedule 1
  = Some (mkAssignment "Ghost" "test not found in tests.xlsx" None)
  /\ (exists st st',
         state_at Sample.labs Sample.tests Sample.contract 1 = Ok st
         /\ state_at Sample.labs Sample.tests Sample.contract 2 = Ok st'
         /\ day_of_sample st' = day_of_sample st)
  /\ map test_name Sample.schedule = required_tests Sample.contract.
Proof.
  apply (unknown_test_is_reported
           Sample.labs Sample.tests Sample.contract Sample.schedule 1 "Ghost").
  - vm_compute. reflexivity.
  - reflexivity.
  - intros row [<-|[<-|[]]]; vm_compute; discriminate.
Defined.

(** C8 as stated fails on the status text: the unknown test of the sample
    contract is reported as "test not found in tests.xlsx". *)
Lemma unknown_test_status_counterexample :
  schedule_for_contract Sample.labs Sample.tests Sample.contract
  = Ok Sample.schedule
  /\ nth_error (required_tests Sample.contract) 1 = Some "Ghost"
  /\ lookup_test Sample.tests "Ghost" = None
  /\ exists a, nth_error Sample.schedule 1 = Some a
               /\ status a <> "test not found".
Proof.
  split; [vm_compute; reflexivity|]. split; [reflexivity|].
  split; [reflexivity|]. eexists. split; [reflexivity|]. discriminate.
Qed.

(** The contract sampled on 2024-02-25 is a winter contract. Its second test
    starts on 2024-03-06, in spring, and is all the same given to the lab
    that works in winter only, not to the faster and cheaper lab that works
    in spring only. *)
Lemma season_resolved_once_witness :
  months_to_season 2 = "winter"
  /\ months_to_season (Date.month 738951) = "spring"
  /\ exists name st st',
       nth_error (required_tests Sample.drifting) 1 = Some name
       /\ state_at Sample.seasonal_labs Sample.tests Sample.drifting 1 = Ok st
       /\ state_at Sample.seasonal_labs Sample.tests Sample.drifting 2 = Ok st'
       /\ outcome Sample.seasonal_labs Sample.tests "winter"
                  (Contract.contract_deadline Sample.drifting)
                  name (day_of_sample st)
                  (mkAssignment "PURITY" "will miss deadline"
                     (Some (mkPlacement 3 "Winter lab" 738951 738960 (-5) 90)))
                  (day_of_sample st')
       /\ forall p,
            Some (mkPlacement 3 "Winter lab" 738951 738960 (-5) 90) = Some p ->
            start_date p = day_of_sample st
            /\ exists test lab,
                 lookup_test Sample.tests name = Some test
                 /\ In lab Sample.seasonal_labs
                 /\ lab_id p = Lab.lab_id lab
                 /\ Eligible test lab "winter".
Proof.
  destruct season_resolved_once as [Hmonths Hpinned].
  split; [apply (Hmonths 2); auto|]. split; [reflexivity|].
  apply (Hpinned Sample.seasonal_labs Sample.tests Sample.drifting
                 Sample.drifting_schedule 1%nat
                 (mkAssignment "PURITY" "will miss deadline"
                    (Some (mkPlacement 3 "Winter lab" 738951 738960 (-5) 90)))).
  - vm_compute. reflexivity.
  - reflexivity.
Defined.

(** * Further properties *)

(** ** More on strings *)

Lemma has_char_app (c : ascii) (a b : string) :
  Str.has_char c (a ++ b)%string = Str.has_char c a || Str.has_char c b.
Proof.
  induction a as [|d a IH]; simpl; [reflexivity|].
  now rewrite IH, orb_assoc.
Qed.

Lemma has_char_lstrip (c : ascii) (s : string) :
  Str.has_char c s = false -> Str.has_char c (Str.lstrip s) = false.
Proof.
  induction s as [|d s IH]; simpl; [reflexivity|].
  intros H. destruct (Str.is_space d); [|exact H].
  apply orb_false_iff in H. now apply IH.
Qed.

Lemma has_char_rstrip (c : ascii) (s : string) :
  Str.has_char c s = false -> Str.has_char c (Str.rstrip s) = false.
Proof.
  induction s as [|d s IH]; simpl; [reflexivity|].
  intros H. apply orb_false_iff in H. destruct H as [Hd Hs].
  specialize (IH Hs). destruct (Str.rstrip s) as [|e r].
  - destruct (Str.is_space d); simpl; [reflexivity | now rewrite Hd].
  - simpl in *. now rewrite Hd, IH.
Qed.

Lemma has_char_strip (c : ascii) (s : string) :
  Str.has_char c s = false -> Str.has_char c (Str.strip s) = false.
Proof. intros H. unfold Str.strip. now apply has_char_lstrip, has_char_rstrip. Qed.

Lemma is_sep_lower_char (c sep : ascii) :
  sep = ","%char \/ sep = ";"%char ->
  Ascii.eqb (Str.lower_char c) sep = Ascii.eqb c sep.
Proof. intros [->| ->]; all_chars c. Qed.

Lemma has_sep_lower (sep : ascii) (s : string) :
  sep = ","%char \/ sep = ";"%char ->
  Str.has_char sep (Str.lower s) = Str.has_char sep s.
Proof.
  intros Hsep. induction s as [|c s IH]; simpl; [reflexivity|].
  now rewrite IH, is_sep_lower_char.
Qed.

Lemma tokens_are_tokens (s t : string) : In t (tokens s) -> is_token t.
Proof.
  intros Hin. destruct (tokens_trimmed _ _ Hin) as [Hs Hne].
  unfold is_token. split; [exact Hs|]. split; [exact Hne|].
  unfold tokens in Hin. apply in_map_iff in Hin.
  destruct Hin as (p & <- & Hp). apply filter_In in Hp. destruct Hp as [Hp _].
  apply pieces_no_separator in Hp. destruct Hp as [Hc Hsc].
  split; now apply has_char_strip.
Qed.

Lemma tokens_lower_are_tokens (s t : string) :
  In t (tokens_lower s) -> is_token t /\ Str.lower t = t.
Proof.
  intros Hin. destruct (tokens_lower_normal _ _ Hin) as (Hs & Hl & Hne).
  split; [|exact Hl]. rewrite tokens_lower_tokens in Hin.
  apply in_map_iff in Hin. destruct Hin as (u & <- & Hu).
  apply tokens_are_tokens in Hu. destruct Hu as (_ & _ & Hc & Hsc).
  unfold is_token. rewrite !has_sep_lower by auto. now repeat split.
Qed.

Lemma replace_id (old new : ascii) (s : string) :
  Str.has_char old s = false -> Str.replace old new s = s.
Proof.
  induction s as [|c s IH]; simpl; [reflexivity|].
  intros H. apply orb_false_iff in H. destruct H as [Hc Hs].
  now rewrite Hc, IH.
Qed.

Lemma replace_app (old new : ascii) (a b : string) :
  Str.replace old new (a ++ b)%string
  = (Str.replace old new a ++ Str.replace old new b)%string.
Proof. induction a as [|c a IH]; simpl; [reflexivity | now rewrite IH]. Qed.

Lemma split_id (sep : ascii) (s : string) :
  Str.has_char sep s = false -> Str.split sep s = [s].
Proof.
  induction s as [|c s IH]; simpl; [reflexivity|].
  intros H. apply orb_false_iff in H. destruct H as [Hc Hs].
  now rewrite Hc, IH.
Qed.

Lemma split_app_sep (sep : ascii) (t r : string) :
  Str.has_char sep t = false ->
  Str.split sep (t ++ String sep r)%string = t :: Str.split sep r.
Proof.
  induction t as [|c t IH]; simpl.
  - intros _. now rewrite Ascii.eqb_refl.
  - intros H. apply orb_false_iff in H. destruct H as [Hc Ht].
    now rewrite Hc, IH.
Qed.

(** Splitting undoes joining, for pieces that do not hold the separator. *)
Lemma split_join (sep : ascii) (ts : list string) :
  ts <> [] ->
  (forall t, In t ts -> Str.has_char sep t = false) ->
  Str.split sep (Str.join sep ts) = ts.
Proof.
  induction ts as [|t ts IH]; [congruence|]. intros _ Hts.
  destruct ts as [|u ts].
  - simpl. apply split_id, Hts. now left.
  - change (Str.join sep (t :: u :: ts))
      with (t ++ String sep (Str.join sep (u :: ts)))%string.
    rewrite split_app_sep by (apply Hts; now left).
    rewrite IH; [reflexivity | discriminate |].
    intros x Hx. apply Hts. now right.
Qed.

Lemma replace_join (ts : list string) :
  (forall t, In t ts -> Str.has_char ";" t = false) ->
  Str.replace ";" "," (Str.join ";" ts) = Str.join "," ts.
Proof.
  induction ts as [|t ts IH]; [reflexivity|]. intros Hts.
  destruct ts as [|u ts].
  - simpl. apply replace_id, Hts. now left.
  - change (Str.join ";" (t :: u :: ts))
      with (t ++ String ";" (Str.join ";" (u :: ts)))%string.
    change (Str.join "," (t :: u :: ts))
      with (t ++ String "," (Str.join "," (u :: ts)))%string.
    rewrite replace_app.
    change (Str.replace ";" "," (String ";" (Str.join ";" (u :: ts))))
      with (String "," (Str.replace ";" "," (Str.join ";" (u :: ts)))).
    rewrite replace_id by (apply Hts; now left).
    rewrite IH; [reflexivity|]. intros x Hx. apply Hts. now right.
Qed.

Lemma has_char_join (c sep : ascii) (ts : list string) :
  Ascii.eqb sep c = false ->
  (forall t, In t ts -> Str.has_char c t = false) ->
  Str.has_char c (Str.join sep ts) = false.
Proof.
  intros Hsep. induction ts as [|t ts IH]; [reflexivity|]. intros Hts.
  destruct ts as [|u ts].
  - simpl. apply Hts. now left.
  - change (Str.join sep (t :: u :: ts))
      with (t ++ String sep (Str.join sep (u :: ts)))%string.
    rewrite has_char_app. simpl. rewrite Hsep, (Hts t (or_introl eq_refl)).
    simpl. apply IH. intros x Hx. apply Hts. now right.
Qed.

Lemma pieces_join_comma (ts : list string) :
  ts <> [] -> (forall t, In t ts -> is_token t) ->
  pieces (Str.join "," ts) = ts.
Proof.
  intros Hne Hts. unfold pieces.
  rewrite replace_id.
  - apply split_join; [exact Hne|]. intros t Ht. apply (Hts t Ht).
  - apply has_char_join; [reflexivity|]. intros t Ht. apply (Hts t Ht).
Qed.

Lemma pieces_join_semicolon (ts : list string) :
  ts <> [] -> (forall t, In t ts -> is_token t) ->
  pieces (Str.join ";" ts) = ts.
Proof.
  intros Hne Hts. unfold pieces.
  rewrite replace_join by (intros t Ht; apply (Hts t Ht)).
  apply split_join; [exact Hne|]. intros t Ht. apply (Hts t Ht).
Qed.

Lemma tokens_of_tokens (ts : list string) :
  (forall t, In t ts -> is_token t) ->
  map Str.strip (filter (fun t => Str.truthy (Str.strip t)) ts) = ts.
Proof.
  induction ts as [|t ts IH]; [reflexivity|]. intros Hts. simpl.
  destruct (Hts t (or_introl eq_refl)) as (Hs & Hne & _).
  rewrite Hs. apply truthy_true in Hne. rewrite Hne. simpl.
  rewrite Hs, IH; [reflexivity|]. intros x Hx. apply Hts. now right.
Qed.

(** X. Parsing undoes joining: a list of well-formed tokens, written out
    with [","] or with [";"] between them, parses back to itself; the parser
    yields well-formed tokens only; and so parsing the joined tokens of a
    text gives the tokens of the text again. *)
Theorem tokens_round_trip :
  (forall ts, (forall t, In t ts -> is_token t) ->
              tokens (Str.join "," ts) = ts /\ tokens (Str.join ";" ts) = ts)
  /\ (forall s t, In t (tokens s) -> is_token t)
  /\ (forall s, tokens (Str.join "," (tokens s)) = tokens s
                /\ tokens (Str.join ";" (tokens s)) = tokens s).
Proof.
  assert (Hjoin : forall ts, (forall t, In t ts -> is_token t) ->
                    tokens (Str.join "," ts) = ts
                    /\ tokens (Str.join ";" ts) = ts).
  { intros ts Hts. destruct ts as [|t ts]; [split; reflexivity|].
    unfold tokens.
    rewrite pieces_join_comma, pieces_join_semicolon
      by (assumption || discriminate).
    split; now apply tokens_of_tokens. }
  split; [exact Hjoin|]. split; [apply tokens_are_tokens|].
  intros s. apply Hjoin. apply tokens_are_tokens.
Qed.

Lemma tokens_round_trip_witness :
  tokens (Str.join "," ["Residue"; "Ghost"; "+4C"])
  = ["Residue"; "Ghost"; "+4C"]
  /\ tokens (Str.join ";" ["Residue"; "Ghost"; "+4C"])
     = ["Residue"; "Ghost"; "+4C"].
Proof.
  apply (proj1 tokens_round_trip).
  intros t [<-|[<-|[<-|[]]]]; unfold is_token; repeat split; discriminate.
Defined.

Lemma replace_lower (s : string) :
  Str.replace ";" "," (Str.lower s) = Str.lower (Str.replace ";" "," s).
Proof.
  induction s as [|c s IH]; simpl; [reflexivity|]. rewrite IH. f_equal.
  all_chars c.
Qed.

Lemma split_lower (s : string) :
  Str.split "," (Str.lower s) = map Str.lower (Str.split "," s).
Proof.
  induction s as [|c s IH]; simpl; [reflexivity|].
  rewrite is_sep_lower_char by auto. rewrite IH.
  destruct (Ascii.eqb c ","); [reflexivity|].
  destruct (Str.split "," s); reflexivity.
Qed.

Lemma pieces_lower (s : string) : pieces (Str.lower s) = map Str.lower (pieces s).
Proof. unfold pieces. now rewrite replace_lower, split_lower. Qed.

Lemma tokens_lower_lower (s : string) :
  tokens_lower (Str.lower s) = tokens_lower s.
Proof.
  unfold tokens_lower. rewrite pieces_lower.
  induction (pieces s) as [|p ps IH]; simpl; [reflexivity|].
  rewrite <- lower_strip, lower_nonempty.
  destruct (Str.truthy (Str.strip p)); simpl; [|exact IH].
  now rewrite <- lower_strip, lower_idem, IH.
Qed.

(** Two texts that differ only in case have the same lower-cased tokens. *)
Lemma tokens_lower_case (s1 s2 : string) :
  Str.lower s1 = Str.lower s2 -> tokens_lower s1 = tokens_lower s2.
Proof.
  intros E. now rewrite <- (tokens_lower_lower s1), E, tokens_lower_lower.
Qed.

Lemma truthy_lower_eq (r1 r2 : string) :
  Str.lower r1 = Str.lower r2 -> Str.truthy r1 = Str.truthy r2.
Proof.
  intros E. now rewrite <- (lower_nonempty r1), E, lower_nonempty.
Qed.

(** ** More on the constraint filter *)

(** X. The filter does not look at case: the required test name, the
    required storage condition and the three lab fields may each be written
    in any mix of upper and lower case without changing whether the lab
    passes. *)
Theorem filter_ignores_case (n1 n2 r1 r2 season : string) (lab1 lab2 : Lab.t) :
  Str.lower n1 = Str.lower n2 ->
  Str.lower r1 = Str.lower r2 ->
  Str.lower (get_str (Lab.supported_tests lab1) "")
  = Str.lower (get_str (Lab.supported_tests lab2) "") ->
  Str.lower (get_str (Lab.seasons_allowed lab1) "all")
  = Str.lower (get_str (Lab.seasons_allowed lab2) "all") ->
  Str.lower (get_str (Lab.storage_conditions_accepted lab1) "")
  = Str.lower (get_str (Lab.storage_conditions_accepted lab2) "") ->
  passes_filter n1 r1 season lab1 = passes_filter n2 r2 season lab2.
Proof.
  intros Hn Hr Hsup Hsea Hsto.
  unfold passes_filter, supported, lab_seasons, lab_storage.
  now rewrite Hn, Hr, (truthy_lower_eq _ _ Hr), (tokens_lower_case _ _ Hsup),
    (tokens_lower_case _ _ Hsea), (tokens_lower_case _ _ Hsto).
Qed.

Lemma filter_ignores_case_witness :
  passes_filter "Residue" "+4C" "winter" Sample.lab_dear
  = passes_filter "RESIDUE" "+4c" "winter" Sample.lab_fair.
Proof.
  apply filter_ignores_case; reflexivity.
Defined.

(** ** The unused parser *)

(** X. [parse_list_field] gives no token for NaN; on a text it gives
    trimmed, non-empty tokens without [","]; it agrees with the parser the
    scheduler uses on every text without [";"], and in general the
    scheduler's parser is [parse_list_field] after [";"] has been turned
    into [","]. *)
Theorem parse_list_field_tokens (s : string) :
  parse_list_field FNa = []
  /\ (forall t, In t (parse_list_field (FText s)) ->
                Str.strip t = t /\ t <> "" /\ Str.has_char "," t = false)
  /\ tokens s = parse_list_field (FText (Str.replace ";" "," s))
  /\ (Str.has_char ";" s = false -> parse_list_field (FText s) = tokens s).
Proof.
  split; [reflexivity|]. split; [|split].
  - intros t Hin. simpl in Hin. apply in_map_iff in Hin.
    destruct Hin as (p & <- & Hp). apply filter_In in Hp.
    destruct Hp as [Hp Hne]. split; [apply strip_idem|].
    split; [now apply truthy_true|].
    apply has_char_strip. eapply split_no_sep, Hp.
  - reflexivity.
  - intros H. unfold tokens, pieces. now rewrite replace_id.
Qed.

Lemma parse_list_field_tokens_witness :
  parse_list_field (FText "Residue, Purity") = tokens "Residue, Purity".
Proof.
  apply (parse_list_field_tokens "Residue, Purity"). reflexivity.
Defined.

(** ** Names and conditions that cannot match *)

Lemma length_lower (s : string) :
  String.length (Str.lower s) = String.length s.
Proof. induction s as [|c s IH]; simpl; [reflexivity | now rewrite IH]. Qed.

Lemma length_lstrip (s : string) :
  (String.length (Str.lstrip s) <= String.length s)%nat.
Proof.
  induction s as [|c s IH]; simpl; [lia|].
  destruct (Str.is_space c); simpl; lia.
Qed.

Lemma length_rstrip (s : string) :
  (String.length (Str.rstrip s) <= String.length s)%nat.
Proof.
  induction s as [|c s IH]; simpl; [lia|].
  destruct (Str.rstrip s) as [|d r]; [destruct (Str.is_space c)|];
    simpl in *; lia.
Qed.

Lemma lstrip_same_length (s : string) :
  String.length (Str.lstrip s) = String.length s -> Str.lstrip s = s.
Proof.
  destruct s as [|c s]; simpl; [reflexivity|].
  destruct (Str.is_space c); [|reflexivity].
  pose proof (length_lstrip s). lia.
Qed.

Lemma rstrip_same_length (s : string) :
  String.length (Str.rstrip s) = String.length s -> Str.rstrip s = s.
Proof.
  induction s as [|c s IH]; simpl; [reflexivity|].
  pose proof (length_rstrip s) as Hle.
  destruct (Str.rstrip s) as [|d r].
  - destruct (Str.is_space c); simpl; [discriminate|].
    intros H. destruct s; [reflexivity | discriminate].
  - simpl in *. intros H. rewrite IH by lia. reflexivity.
Qed.

Lemma strip_same_length (s : string) :
  String.length (Str.strip s) = String.length s -> Str.strip s = s.
Proof.
  unfold Str.strip. intros H.
  pose proof (length_lstrip (Str.rstrip s)). pose proof (length_rstrip s).
  assert (Hr : Str.rstrip s = s) by (apply rstrip_same_length; lia).
  rewrite Hr in *. now apply lstrip_same_length.
Qed.

(** What equals a well-formed token up to case is well-formed. *)
Lemma is_token_lower_eq (t r : string) :
  is_token t -> Str.lower t = Str.lower r -> is_token r.
Proof.
  intros (Hs & Hne & Hc & Hsc) E. unfold is_token.
  split; [|split; [|split]].
  - apply strip_same_length.
    rewrite <- (length_lower (Str.strip r)), lower_strip, <- E, <- lower_strip,
      Hs, E. apply length_lower.
  - intros ->. destruct t; [congruence | discriminate].
  - now rewrite <- (has_sep_lower "," r), <- E, has_sep_lower by auto.
  - now rewrite <- (has_sep_lower ";" r), <- E, has_sep_lower by auto.
Qed.

(** X. A required storage condition that is not empty and is not a
    well-formed token (it has blanks around it, or a [","] or [";"] in it) is
    accepted by no lab: a test that requires it is reported as "no suitable
    lab found". *)
Theorem malformed_storage_requirement
        (labs : list Lab.t) (tests : list Test.t) (c : Contract.t)
        (sch : list assignment) (a : assignment) (test : Test.t) :
  schedule_for_contract labs tests c = Ok sch ->
  In a sch ->
  lookup_test tests (test_name a) = Some test ->
  req_storage_of test <> "" ->
  ~ is_token (req_storage_of test) ->
  (forall lab, ~ Eligible test lab (season_of c))
  /\ status a = "no suitable lab found"
  /\ placed a = None.
Proof.
  intros Hrun Hin Hfind Hne Hbad.
  assert (Hno : forall lab, ~ Eligible test lab (season_of c)).
  { intros lab (_ & _ & [E|(t & Ht & E)]); [contradiction|].
    apply Hbad. apply (is_token_lower_eq t); [|exact E].
    unfold lab_storage in Ht. now apply tokens_lower_are_tokens in Ht. }
  split; [exact Hno|].
  destruct (schedule_member _ _ _ _ _ Hrun Hin) as (name & st & st' & _ & Hout).
  pose proof (outcome_test_name _ _ _ _ _ _ _ _ Hout) as Hname.
  rewrite Hname in Hfind.
  destruct Hout as [Hnf | t Hf Hnone | t l Hf Hl Hpass Hmin]; simpl.
  - congruence.
  - now split.
  - exfalso. assert (t = test) by congruence. subst t.
    apply (Hno l). now apply (passes_filter_Eligible tests name).
Qed.

Lemma malformed_storage_requirement_witness :
  (forall lab, ~ Eligible Sample2.blank lab (season_of Sample2.blank_contract))
  /\ "no suitable lab found" = "no suitable lab found"
  /\ @None placement = None.
Proof.
  apply (malformed_storage_requirement
           Sample.labs [Sample2.blank] Sample2.blank_contract
           Sample2.blank_schedule
           (mkAssignment "Residue" "no suitable lab found" None)
           Sample2.blank).
  - vm_compute. reflexivity.
  - simpl. auto.
  - reflexivity.
  - discriminate.
  - intros (H & _). discriminate H.
Defined.

(** X. A required test is only ever matched with a row of the Tests table
    whose name is a well-formed token: a row whose [test_name] has blanks
    around it, or a [","] or [";"] in it, is found by no required test, and
    every row found has the name of the required test up to case. *)
Theorem found_rows_have_token_names
        (tests : list Test.t) (c : Contract.t) (name : string) (row : Test.t) :
  In name (required_tests c) ->
  lookup_test tests name = Some row ->
  In row tests
  /\ Str.lower (Test.test_name row) = Str.lower name
  /\ is_token (Test.test_name row).
Proof.
  intros Hin Hfind. apply lookup_test_found in Hfind.
  destruct Hfind as [Hrow Hname]. split; [exact Hrow|]. split; [exact Hname|].
  apply (is_token_lower_eq name); [|now symmetry].
  unfold required_tests in Hin. now apply tokens_are_tokens in Hin.
Qed.

Lemma found_rows_have_token_names_witness :
  In Sample.residue Sample.tests
  /\ Str.lower "Residue" = Str.lower "residue"
  /\ is_token "Residue".
Proof.
  apply (found_rows_have_token_names Sample.tests Sample.drifting
                                     "residue" Sample.residue).
  - simpl. auto.
  - reflexivity.
Defined.

(** ** More on the sequential scheduler *)

Lemma timeline_after_app (day : Date.t) (s1 s2 : list assignment) :
  timeline_after day (s1 ++ s2) = timeline_after (timeline_after day s1) s2.
Proof. unfold timeline_after. apply fold_left_app. Qed.

Lemma outcome_day labs tests season deadline name day a day' :
  outcome labs tests season deadline name day a day' ->
  day' = timeline_after day [a].
Proof. destruct 1; reflexivity. Qed.

(** The loop over the required tests, seen from outside: it appends one
    assignment per name and leaves the timeline where those assignments put
    it. *)
Lemma loop_timeline (labs : list Lab.t) (tests : list Test.t)
      (season : string) (deadline : Date.t) (names : list string)
      (st final : loop_state) :
  for_each (schedule_body labs tests season deadline) names st = Ok final ->
  exists more,
    assignments final = assignments st ++ more
    /\ map test_name more = names
    /\ day_of_sample final = timeline_after (day_of_sample st) more.
Proof.
  revert st. induction names as [|name names IH]; intros st; simpl.
  - intros E. injection E as <-. exists []. now rewrite app_nil_r.
  - intros H. apply bind_Ok in H. destruct H as (st1 & Hb & H).
    apply schedule_body_outcome in Hb. destruct Hb as (a & Ha & Hn & Hout).
    apply IH in H. destruct H as (more & Hm & Hnames & Hday).
    exists (a :: more). split; [|split].
    + rewrite Hm, Ha, <- app_assoc. reflexivity.
    + simpl. now rewrite Hn, Hnames.
    + change (a :: more) with ([a] ++ more).
      rewrite timeline_after_app, <- (outcome_day _ _ _ _ _ _ _ _ Hout).
      exact Hday.
Qed.

Lemma firstn_length_app {A : Type} (l1 l2 : list A) (n : nat) :
  List.length l1 = n -> firstn n (l1 ++ l2) = l1.
Proof. intros <-. apply firstn_prefix. Qed.

(** The run of the scheduler cut at entry [i] of the schedule: the names
    before it, the iteration that made it, and the names after it. *)
Lemma schedule_split (labs : list Lab.t) (tests : list Test.t)
      (c : Contract.t) (sch : list assignment) (i : nat) (a : assignment) :
  schedule_for_contract labs tests c = Ok sch ->
  nth_error sch i = Some a ->
  exists l1 name l2 st st' final more2,
    required_tests c = l1 ++ name :: l2
    /\ List.length l1 = i
    /\ state_at labs tests c i = Ok st
    /\ schedule_body labs tests (season_of c) (Contract.contract_deadline c)
                     st name = Ok st'
    /\ for_each (schedule_body labs tests (season_of c)
                               (Contract.contract_deadline c)) l2 st'
       = Ok final
    /\ assignments st = firstn i sch
    /\ assignments st' = firstn i sch ++ [a]
    /\ sch = firstn i sch ++ a :: more2
    /\ assignments final = assignments st' ++ more2
    /\ day_of_sample st
       = timeline_after (Contract.sample_collection_date c) (firstn i sch).
Proof.
  intros Hrun Hnth. apply schedule_run in Hrun.
  destruct Hrun as (final & Hrun & <-).
  pose proof (schedule_loop_appends _ _ _ _ _ _ _ Hrun) as (more & Hmore & Hnames).
  simpl in Hmore.
  assert (Hname : exists name, nth_error (required_tests c) i = Some name).
  { rewrite <- Hnames, nth_error_map, <- Hmore, Hnth. simpl. eauto. }
  destruct Hname as (name & Hname).
  destruct (nth_error_split _ _ Hname) as (l1 & l2 & Hsplit & Hlen).
  unfold state_at. rewrite Hsplit in Hrun |- *.
  rewrite (firstn_length_app l1 (name :: l2) i Hlen).
  rewrite for_each_app in Hrun. apply bind_Ok in Hrun.
  destruct Hrun as (st & Hst & Hrun). simpl in Hrun.
  apply bind_Ok in Hrun. destruct Hrun as (st' & Hbody & Hrest).
  pose proof (schedule_body_outcome _ _ _ _ _ _ _ Hbody) as (a' & Ha' & _ & _).
  pose proof (loop_timeline _ _ _ _ _ _ _ Hst) as (m1 & Hm1 & Hn1 & Hday).
  pose proof (schedule_loop_appends _ _ _ _ _ _ _ Hrest) as (m2 & Hm2 & _).
  simpl in Hm1, Hday.
  assert (Hl : List.length m1 = i) by (now rewrite <- Hlen, <- Hn1, length_map).
  assert (Hsch : assignments final = m1 ++ a' :: m2).
  { rewrite Hm2, Ha', Hm1, <- app_assoc. reflexivity. }
  assert (a' = a).
  { rewrite Hsch, <- Hl, nth_error_middle in Hnth. congruence. }
  subst a'.
  assert (Hfirst : firstn i (assignments final) = m1).
  { rewrite Hsch. now apply firstn_length_app. }
  exists l1, name, l2, st, st', final, m2.
  rewrite Hfirst.
  split; [reflexivity|]. split; [exact Hlen|]. split; [exact Hst|].
  split; [exact Hbody|]. split; [exact Hrest|]. split; [exact Hm1|].
  split; [congruence|]. split; [exact Hsch|]. split; [exact Hm2|].
  exact Hday.
Qed.

(** X. Every assignment of a returned schedule is of one of three kinds:
    "test not found in tests.xlsx", without placement, for a name that no
    row of the Tests table matches; "no suitable lab found", without
    placement, for a test that no lab is eligible for; or an assignment with
    all six placement fields whose status is "scheduled" or "will miss
    deadline". *)
Theorem status_and_fields
        (labs : list Lab.t) (tests : list Test.t) (c : Contract.t)
        (sch : list assignment) (a : assignment) :
  schedule_for_contract labs tests c = Ok sch ->
  In a sch ->
  (status a = "test not found in tests.xlsx"
   /\ placed a = None
   /\ lookup_test tests (test_name a) = None)
  \/ (status a = "no suitable lab found"
      /\ placed a = None
      /\ exists test,
           lookup_test tests (test_name a) = Some test
           /\ forall lab, In lab labs -> ~ Eligible test lab (season_of c))
  \/ (exists p,
         placed a = Some p
         /\ (status a = "scheduled" \/ status a = "will miss deadline")).
Proof.
  intros Hrun Hin.
  destruct (schedule_member _ _ _ _ _ Hrun Hin) as (name & st & st' & _ & Hout).
  destruct Hout as [Hnf | t Hf Hnone | t l Hf Hl Hpass Hmin]; simpl.
  - left. now repeat split.
  - right. left. split; [reflexivity|]. split; [reflexivity|].
    exists t. split; [exact Hf|]. intros lab Hlab Hel.
    apply (passes_filter_Eligible tests name) in Hel; [|exact Hf].
    rewrite (Hnone lab Hlab) in Hel. discriminate.
  - right. right. eexists. split; [reflexivity|].
    destruct (0 <=? _); [now left | now right].
Qed.

Lemma status_and_fields_witness :
  ("test not found in tests.xlsx" = "test not found in tests.xlsx"
   /\ @None placement = None
   /\ lookup_test Sample.tests "Ghost" = None)
  \/ ("test not found in tests.xlsx" = "no suitable lab found"
      /\ @None placement = None
      /\ exists test,
           lookup_test Sample.tests "Ghost" = Some test
           /\ forall lab, In lab Sample.labs ->
                          ~ Eligible test lab (season_of Sample.contract))
  \/ (exists p,
         @None placement = Some p
         /\ ("test not found in tests.xlsx" = "scheduled"
             \/ "test not found in tests.xlsx" = "will miss deadline")).
Proof.
  apply (status_and_fields
           Sample.labs Sample.tests Sample.contract Sample.schedule
           (mkAssignment "Ghost" "test not found in tests.xlsx" None)).
  - vm_compute. reflexivity.
  - simpl. auto.
Defined.

(** After [i] iterations the loop holds the first [i] assignments of the
    schedule it will return, and the timeline they lead to. *)
Lemma state_at_prefix
      (labs : list Lab.t) (tests : list Test.t) (c : Contract.t)
      (sch : list assignment) (i : nat) :
  schedule_for_contract labs tests c = Ok sch ->
  (i <= List.length sch)%nat ->
  exists st,
    state_at labs tests c i = Ok st
    /\ assignments st = firstn i sch
    /\ day_of_sample st
       = timeline_after (Contract.sample_collection_date c) (firstn i sch).
Proof.
  intros Hrun Hi. destruct (schedule_run _ _ _ _ Hrun) as (final & Hloop & Hfin).
  pose proof (schedule_loop_appends _ _ _ _ _ _ _ Hloop) as (m & Hm & Hnames).
  simpl in Hm. unfold state_at.
  rewrite <- (firstn_skipn i (required_tests c)), for_each_app in Hloop.
  apply bind_Ok in Hloop. destruct Hloop as (st & Hst & Hrest).
  exists st. split; [exact Hst|].
  pose proof (loop_timeline _ _ _ _ _ _ _ Hst) as (m1 & Hm1 & Hn1 & Hday).
  pose proof (schedule_loop_appends _ _ _ _ _ _ _ Hrest) as (m2 & Hm2 & _).
  simpl in Hm1, Hday.
  assert (Hl : List.length m1 = i).
  { rewrite <- (length_map test_name), Hn1, length_firstn.
    rewrite <- Hnames, length_map, <- Hm, Hfin. lia. }
  assert (Hfirst : firstn i sch = m1).
  { rewrite <- Hfin, Hm2, Hm1. now apply firstn_length_app. }
  rewrite Hfirst. split; [exact Hm1 | exact Hday].
Qed.

(** X. After [i] iterations the loop holds the first [i] assignments of the
    schedule it will return, and its timeline stands at the finish date of
    the last of them that has a placement, or at [sample_collection_date]
    when none has. So an assignment with a placement starts on the finish
    date of the nearest assignment with a placement before it, and the first
    such assignment starts on [sample_collection_date]. *)
Theorem timeline_is_last_finish
        (labs : list Lab.t) (tests : list Test.t) (c : Contract.t)
        (sch : list assignment) :
  schedule_for_contract labs tests c = Ok sch ->
  (forall i, (i <= List.length sch)%nat ->
     exists st,
       state_at labs tests c i = Ok st
       /\ assignments st = firstn i sch
       /\ day_of_sample st
          = timeline_after (Contract.sample_collection_date c) (firstn i sch))
  /\ (forall i a p,
         nth_error sch i = Some a ->
         placed a = Some p ->
         start_date p
         = timeline_after (Contract.sample_collection_date c) (firstn i sch)).
Proof.
  intros Hrun. split.
  - intros i Hi. now apply state_at_prefix.
  - intros i a p Ha Hp.
    destruct (schedule_split _ _ _ _ _ _ Hrun Ha)
      as (l1 & name & l2 & st & st' & final & m2
          & _ & _ & _ & Hbody & _ & Hst & Hst' & _ & _ & Hday).
    apply schedule_body_outcome in Hbody.
    destruct Hbody as (a' & Ha' & _ & Hout).
    rewrite Hst, Hst' in Ha'. apply app_inv_head in Ha'.
    injection Ha' as <-.
    destruct (outcome_placed _ _ _ _ _ _ _ _ _ Hout Hp)
      as (t & l & _ & _ & _ & _ & -> & _). simpl. exact Hday.
Qed.

Lemma timeline_is_last_finish_witness :
  (forall i, (i <= List.length Sample2.longer_schedule)%nat ->
     exists st,
       state_at Sample.labs Sample.tests Sample2.longer_contract i = Ok st
       /\ assignments st = firstn i Sample2.longer_schedule
       /\ day_of_sample st
          = timeline_after
              (Contract.sample_collection_date Sample2.longer_contract)
              (firstn i Sample2.longer_schedule))
  /\ (forall i a p,
         nth_error Sample2.longer_schedule i = Some a ->
         placed a = Some p ->
         start_date p
         = timeline_after
             (Contract.sample_collection_date Sample2.longer_contract)
             (firstn i Sample2.longer_schedule)).
Proof.
  apply (timeline_is_last_finish
           Sample.labs Sample.tests Sample2.longer_contract
           Sample2.longer_schedule).
  vm_compute. reflexivity.
Defined.

(** X. Requiring more tests at the end of a contract leaves the assignments
    of the tests before them as they were: the schedule of a contract is the
    beginning of the schedule of any contract with the same dates whose
    required tests begin with its own. *)
Theorem schedule_of_prefix
        (labs : list Lab.t) (tests : list Test.t) (c1 c2 : Contract.t)
        (more : list string) (sch2 : list assignment) :
  required_tests c2 = required_tests c1 ++ more ->
  Contract.sample_collection_date c1 = Contract.sample_collection_date c2 ->
  Contract.contract_deadline c1 = Contract.contract_deadline c2 ->
  schedule_for_contract labs tests c2 = Ok sch2 ->
  schedule_for_contract labs tests c1
  = Ok (firstn (List.length (required_tests c1)) sch2).
Proof.
  intros Hreq Hdate Hdead Hrun.
  assert (Hlen : (List.length (required_tests c1) <= List.length sch2)%nat).
  { destruct (schedule_run _ _ _ _ Hrun) as (final & Hloop & Hfin).
    apply schedule_loop_appends in Hloop.
    destruct Hloop as (m & Hm & Hnames). simpl in Hm.
    rewrite <- Hfin, Hm, <- (length_map test_name), Hnames, Hreq, length_app.
    lia. }
  destruct (state_at_prefix _ _ _ _ _ Hrun Hlen) as (st & Hst & Hass & _).
  unfold state_at in Hst. rewrite Hreq, firstn_prefix in Hst.
  unfold schedule_for_contract. fold (season_of c1).
  replace (season_of c1) with (season_of c2)
    by (unfold season_of; now rewrite Hdate).
  rewrite Hdate, Hdead, Hst. simpl. now rewrite Hass.
Qed.

Lemma schedule_of_prefix_witness :
  schedule_for_contract Sample.labs Sample.tests Sample.contract
  = Ok (firstn (List.length (required_tests Sample.contract))
               Sample2.longer_schedule).
Proof.
  apply (schedule_of_prefix Sample.labs Sample.tests Sample.contract
                            Sample2.longer_contract ["Residue"]).
  - reflexivity.
  - reflexivity.
  - reflexivity.
  - vm_compute. reflexivity.
Defined.

Lemma outcome_advances labs tests season deadline name day a day' :
  (forall test lab, In test tests -> In lab labs ->
     0 <= Test.duration_days test + Lab.turnaround_days lab) ->
  outcome labs tests season deadline name day a day' ->
  day <= day'
  /\ forall p, placed a = Some p ->
       start_date p = day /\ finish_date p = day'
       /\ days_before_deadline p = deadline - day'
       /\ status a = (if 0 <=? deadline - day'
                      then "scheduled" else "will miss deadline").
Proof.
  intros Hnn Hout.
  destruct Hout as [Hnf | t Hf Hnone | t l Hf Hl Hpass Hmin]; simpl.
  - split; [lia | discriminate].
  - split; [lia | discriminate].
  - apply lookup_test_found in Hf. destruct Hf as [Ht _].
    specialize (Hnn t l Ht Hl). split; [unfold finish_of; lia|].
    intros p E. injection E as <-. now repeat split.
Qed.

(** With durations and turnarounds that do not add up to less than nothing,
    the timeline never moves back. *)
Lemma loop_monotone (labs : list Lab.t) (tests : list Test.t)
      (season : string) (deadline : Date.t) (names : list string)
      (st final : loop_state) :
  (forall test lab, In test tests -> In lab labs ->
     0 <= Test.duration_days test + Lab.turnaround_days lab) ->
  for_each (schedule_body labs tests season deadline) names st = Ok final ->
  exists more,
    assignments final = assignments st ++ more
    /\ forall a p, In a more -> placed a = Some p ->
         day_of_sample st <= start_date p <= finish_date p
         /\ days_before_deadline p = deadline - finish_date p
         /\ status a = (if 0 <=? days_before_deadline p
                        then "scheduled" else "will miss deadline").
Proof.
  intros Hnn. revert st. induction names as [|name names IH]; intros st; simpl.
  - intros E. injection E as <-. exists []. rewrite app_nil_r.
    split; [reflexivity|]. intros a p [].
  - intros H. apply bind_Ok in H. destruct H as (st1 & Hb & H).
    apply schedule_body_outcome in Hb. destruct Hb as (a & Ha & _ & Hout).
    destruct (outcome_advances _ _ _ _ _ _ _ _ Hnn Hout) as [Hday Hplaced].
    apply IH in H. destruct H as (more & Hm & Hmore).
    exists (a :: more). split; [rewrite Hm, Ha, <- app_assoc; reflexivity|].
    intros b p [<-|Hin] Hp.
    + destruct (Hplaced p Hp) as (Hs & Hf & Hd & Hst).
      rewrite Hd, Hs, Hf. split; [lia|]. split; [reflexivity | exact Hst].
    + destruct (Hmore b p Hin Hp) as (Hs & Hrest). split; [lia | exact Hrest].
Qed.

(** X. With durations and turnarounds that do not add up to less than
    nothing, the placements of a schedule follow one another in time: an
    earlier one finishes no later than a later one starts, so the margin to
    the deadline only shrinks, and once an assignment will miss the deadline
    every later assignment that has a placement will miss it too. *)
Theorem late_stays_late
        (labs : list Lab.t) (tests : list Test.t) (c : Contract.t)
        (sch : list assignment) (i j : nat) (a b : assignment)
        (p q : placement) :
  (forall test lab, In test tests -> In lab labs ->
     0 <= Test.duration_days test + Lab.turnaround_days lab) ->
  schedule_for_contract labs tests c = Ok sch ->
  (i < j)%nat ->
  nth_error sch i = Some a -> placed a = Some p ->
  nth_error sch j = Some b -> placed b = Some q ->
  start_date p <= finish_date p <= start_date q
  /\ start_date q <= finish_date q
  /\ days_before_deadline q <= days_before_deadline p
  /\ (status a = "will miss deadline" -> status b = "will miss deadline").
Proof.
  intros Hnn Hrun Hij Ha Hp Hb Hq.
  destruct (schedule_split _ _ _ _ _ _ Hrun Ha)
    as (l1 & name & l2 & st & st' & final & m2
        & _ & _ & _ & Hbody & Hrest & Hst & Hst' & Hsch & Hfin & _).
  apply schedule_body_outcome in Hbody. destruct Hbody as (a' & Ha' & _ & Hout).
  rewrite Hst, Hst' in Ha'. apply app_inv_head in Ha'. injection Ha' as <-.
  destruct (outcome_advances _ _ _ _ _ _ _ _ Hnn Hout) as [Hday Hplaced].
  destruct (Hplaced p Hp) as (Hps & Hpf & Hpd & Hpst).
  destruct (loop_monotone _ _ _ _ _ _ _ Hnn Hrest) as (more & Hmore & Hlater).
  rewrite Hfin in Hmore. apply app_inv_head in Hmore. subst more.
  assert (Hin : In b m2).
  { rewrite Hsch in Hb.
    assert (Hlen : List.length (firstn i sch) = i).
    { apply firstn_length_le. apply Nat.lt_le_incl, nth_error_Some. congruence. }
    rewrite nth_error_app2 in Hb by lia. rewrite Hlen in Hb.
    destruct (j - i)%nat as [|k] eqn:E; [lia|]. simpl in Hb.
    eapply nth_error_In, Hb. }
  destruct (Hlater b q Hin Hq) as (Hqs & Hqd & Hqst).
  rewrite Hps, Hpf, Hpd, Hqd. repeat split; try lia.
  rewrite Hpst, Hqst, Hqd.
  destruct (Z.leb_spec 0 (Contract.contract_deadline c - day_of_sample st'));
    [discriminate|].
  intros _.
  destruct (Z.leb_spec 0 (Contract.contract_deadline c - finish_date q));
    [lia | reflexivity].
Qed.

Lemma late_stays_late_witness :
  738941 <= 738951 <= 738951
  /\ 738951 <= 738960
  /\ -14 <= -5
  /\ ("will miss deadline" = "will miss deadline"
      -> "will miss deadline" = "will miss deadline").
Proof.
  apply (late_stays_late
           Sample.seasonal_labs Sample.tests Sample2.late_contract
           Sample2.late_schedule 0 1
           (mkAssignment "residue" "will miss deadline"
              (Some (mkPlacement 3 "Winter lab" 738941 738951 (-5) 90)))
           (mkAssignment "PURITY" "will miss deadline"
              (Some (mkPlacement 3 "Winter lab" 738951 738960 (-14) 90)))
           (mkPlacement 3 "Winter lab" 738941 738951 (-5) 90)
           (mkPlacement 3 "Winter lab" 738951 738960 (-14) 90)).
  - intros test lab [<-|[<-|[]]] [<-|[<-|[]]]; simpl; lia.
  - vm_compute. reflexivity.
  - lia.
  - reflexivity.
  - reflexivity.
  - reflexivity.
  - reflexivity.
Defined.

(** ** More on the candidate ranker *)

Lemma key_lt_strict (x y : candidate) :
  key_lt x y = true
  <-> cand_finish x < cand_finish y
      \/ (cand_finish x = cand_finish y /\ (cand_price x < cand_price y)%Q).
Proof.
  unfold key_lt.
  destruct (Z.eqb_spec (cand_finish x) (cand_finish y)) as [E|N]; simpl.
  - destruct (Qeq_bool (cand_price x) (cand_price y)) eqn:Ep; simpl.
    + apply Qeq_bool_iff in Ep. split; [discriminate|].
      intros [H|[_ H]]; [lia|]. rewrite Ep in H.
      now apply Qlt_irrefl in H.
    + rewrite float_lt_iff. split; [now right | intros [H|[_ H]]; [lia | exact H]].
  - rewrite Z.ltb_lt. split; [now left | intros [H|[H _]]; [exact H | lia]].
Qed.

(** [sorted] is stable at its head: the first of the sorted candidates is
    the first of the candidates that none comes before, that is, every
    candidate listed before it comes strictly after it in the order. *)
Lemma sorted_head_first (xs : list candidate) (x : candidate)
      (rest : list candidate) :
  sorted xs = x :: rest ->
  exists pre post,
    xs = pre ++ x :: post /\ forall y, In y pre -> key_lt x y = true.
Proof.
  revert x rest. induction xs as [|a xs IH]; intros x rest; simpl;
    [discriminate|].
  destruct (sorted xs) as [|y ys] eqn:Hs.
  - apply sorted_nil in Hs. subst xs. simpl. intros E. injection E as <- _.
    exists [], []. split; [reflexivity | intros z []].
  - simpl. destruct (key_lt y a) eqn:Hlt.
    + intros E. injection E as <- _.
      destruct (IH y ys eq_refl) as (pre & post & -> & Hpre).
      exists (a :: pre), post. split; [reflexivity|].
      intros z [<-|Hz]; [exact Hlt | now apply Hpre].
    + intros E. injection E as <- _.
      exists [], xs. split; [reflexivity | intros z []].
Qed.

Lemma filter_split {A : Type} (f : A -> bool) (l l1 l2 : list A) (x : A) :
  filter f l = l1 ++ x :: l2 ->
  exists m1 m2,
    l = m1 ++ x :: m2 /\ filter f m1 = l1 /\ filter f m2 = l2 /\ f x = true.
Proof.
  revert l1. induction l as [|y l IH]; intros l1; simpl.
  - destruct l1; discriminate.
  - destruct (f y) eqn:Hy.
    + destruct l1 as [|z l1]; simpl; intros E; injection E as -> E.
      * exists [], l. now repeat split.
      * destruct (IH _ E) as (m1 & m2 & -> & H1 & H2 & Hx).
        exists (z :: m1), m2. simpl. rewrite Hy, H1. now repeat split.
    + intros E. destruct (IH _ E) as (m1 & m2 & -> & H1 & H2 & Hx).
      exists (y :: m1), m2. simpl. rewrite Hy. now repeat split.
Qed.

Lemma app_mid_earlier {A : Type} (b1 b2 a1 a2 : list A) (x y : A) :
  b1 ++ x :: a1 = b2 ++ y :: a2 ->
  (List.length b1 < List.length b2)%nat -> In x b2.
Proof.
  revert b2. induction b1 as [|z b1 IH]; intros [|w b2]; simpl;
    intros E Hlen; try lia.
  - injection E as -> _. now left.
  - injection E as _ E. right. apply (IH b2); [exact E | lia].
Qed.

Lemma app_mid_same {A : Type} (b1 b2 a1 a2 : list A) (x y : A) :
  b1 ++ x :: a1 = b2 ++ y :: a2 ->
  List.length b1 = List.length b2 -> x = y.
Proof.
  revert b2. induction b1 as [|z b1 IH]; intros [|w b2]; simpl;
    intros E Hlen; try discriminate.
  - now injection E.
  - injection E as _ E. apply (IH b2); [exact E | lia].
Qed.

Lemma lookup_test_lower (tests : list Test.t) (n1 n2 : string) :
  Str.lower n1 = Str.lower n2 -> lookup_test tests n1 = lookup_test tests n2.
Proof. intros E. unfold lookup_test. now rewrite E. Qed.

Lemma passes_filter_lower_name (n1 n2 req season : string) (lab : Lab.t) :
  Str.lower n1 = Str.lower n2 ->
  passes_filter n1 req season lab = passes_filter n2 req season lab.
Proof. intros E. unfold passes_filter. now rewrite E. Qed.

(** Where in the table the lab of a placement stands: it passes the filter,
    no lab that passes comes before it in the ranking, and every lab listed
    before it that passes comes strictly after it in the ranking. *)
Lemma chosen_position (labs : list Lab.t) (tests : list Test.t)
      (season : string) (deadline : Date.t) (st st' : loop_state)
      (name : string) (a : assignment) (p : placement) :
  schedule_body labs tests season deadline st name = Ok st' ->
  assignments st' = assignments st ++ [a] ->
  placed a = Some p ->
  exists test before lab after,
    test_name a = name
    /\ lookup_test tests name = Some test
    /\ labs = before ++ lab :: after
    /\ passes_filter name (req_storage_of test) season lab = true
    /\ p = mkPlacement (Lab.lab_id lab) (Lab.name lab) (day_of_sample st)
                       (finish_of (day_of_sample st) test lab)
                       (deadline - finish_of (day_of_sample st) test lab)
                       (Lab.price_per_test lab)
    /\ (forall l, In l labs ->
          passes_filter name (req_storage_of test) season l = true ->
          ranks_before (day_of_sample st) test lab l)
    /\ (forall l, In l before ->
          passes_filter name (req_storage_of test) season l = true ->
          finish_of (day_of_sample st) test lab
          < finish_of (day_of_sample st) test l
          \/ (finish_of (day_of_sample st) test l
              = finish_of (day_of_sample st) test lab
              /\ (Lab.price_per_test lab < Lab.price_per_test l)%Q)).
Proof.
  unfold schedule_body. intros H Hass Hp.
  destruct (lookup_test tests name) as [test|] eqn:Hfind.
  2:{ injection H as <-. simpl in Hass. apply app_inv_head in Hass.
      injection Hass as <-. discriminate. }
  apply bind_Ok in H. destruct H as (cs & Hcs & H).
  apply candidates_loop in Hcs. simpl in Hcs.
  destruct cs as [|c0 cs'].
  { injection H as <-. simpl in Hass. apply app_inv_head in Hass.
    injection Hass as <-. discriminate. }
  destruct (sorted (c0 :: cs')) as [|chosen rest] eqn:Hs; [discriminate|].
  injection H as <-. simpl in Hass. apply app_inv_head in Hass.
  injection Hass as <-. simpl in Hp. injection Hp as <-.
  destruct (sorted_head _ _ _ Hs) as [_ Hmin].
  destruct (sorted_head_first _ _ _ Hs) as (pre & post & Hsplit & Hpre).
  rewrite Hcs in Hsplit, Hmin.
  destruct (map_eq_app _ _ _ _ Hsplit) as (l1 & l2 & Hfilter & Hl1 & Hl2).
  destruct (map_eq_cons _ _ Hl2) as (lab & l2' & -> & Hlab & _).
  destruct (filter_split _ _ _ _ _ Hfilter)
    as (before & after & Hlabs & Hbefore & _ & Hpass).
  exists test, before, lab, after. subst chosen. simpl.
  replace (day_of_sample st
           + (Test.duration_days test + Lab.turnaround_days lab))
    with (finish_of (day_of_sample st) test lab) by (unfold finish_of; lia).
  repeat (split; [assumption || reflexivity|]).
  split.
  - intros l Hl Hpl.
    assert (Hle : key_le (candidate_of (Test.duration_days test)
                                       (day_of_sample st) deadline lab)
                         (candidate_of (Test.duration_days test)
                                       (day_of_sample st) deadline l)).
    { apply Hmin, in_map, filter_In. now split. }
    unfold key_le in Hle. simpl in Hle. unfold ranks_before, finish_of.
    destruct Hle as [Hlt|[Heq Hpr]]; split; try lia; intros; tauto || lia.
  - intros l Hl Hpl.
    assert (Hlt : key_lt (candidate_of (Test.duration_days test)
                                       (day_of_sample st) deadline lab)
                         (candidate_of (Test.duration_days test)
                                       (day_of_sample st) deadline l) = true).
    { apply Hpre. rewrite <- Hl1. apply in_map. rewrite <- Hbefore.
      apply filter_In. now split. }
    apply key_lt_strict in Hlt. simpl in Hlt. unfold finish_of.
    destruct Hlt as [Hlt|[Heq Hpr]]; [left; lia | right; split; [lia | exact Hpr]].
Qed.

Lemma schedule_entry_position
      (labs : list Lab.t) (tests : list Test.t) (c : Contract.t)
      (sch : list assignment) (i : nat) (a : assignment) (p : placement) :
  schedule_for_contract labs tests c = Ok sch ->
  nth_error sch i = Some a ->
  placed a = Some p ->
  exists day test before lab after,
    lookup_test tests (test_name a) = Some test
    /\ labs = before ++ lab :: after
    /\ passes_filter (test_name a) (req_storage_of test) (season_of c) lab
       = true
    /\ p = mkPlacement (Lab.lab_id lab) (Lab.name lab) day
                       (finish_of day test lab)
                       (Contract.contract_deadline c - finish_of day test lab)
                       (Lab.price_per_test lab)
    /\ (forall l, In l labs ->
          passes_filter (test_name a) (req_storage_of test) (season_of c) l
          = true ->
          ranks_before day test lab l)
    /\ (forall l, In l before ->
          passes_filter (test_name a) (req_storage_of test) (season_of c) l
          = true ->
          finish_of day test lab < finish_of day test l
          \/ (finish_of day test l = finish_of day test lab
              /\ (Lab.price_per_test lab < Lab.price_per_test l)%Q)).
Proof.
  intros Hrun Ha Hp.
  destruct (schedule_split _ _ _ _ _ _ Hrun Ha)
    as (l1 & name & l2 & st & st' & final & m2
        & _ & _ & _ & Hbody & _ & Hst & Hst' & _).
  rewrite <- Hst in Hst'.
  destruct (chosen_position _ _ _ _ _ _ _ _ _ Hbody Hst' Hp)
    as (test & before & lab & after & <- & H).
  exists (day_of_sample st), test, before, lab, after. exact H.
Qed.

(** X. When several eligible labs tie on finish date and price, the one that
    stands first in the Labs table is chosen: every eligible lab listed
    before the chosen one finishes strictly later, or on the same day at a
    strictly higher price. *)
Theorem first_of_the_best
        (labs : list Lab.t) (tests : list Test.t) (c : Contract.t)
        (sch : list assignment) (i : nat) (a : assignment) (p : placement) :
  schedule_for_contract labs tests c = Ok sch ->
  nth_error sch i = Some a ->
  placed a = Some p ->
  exists test before lab after,
    lookup_test tests (test_name a) = Some test
    /\ labs = before ++ lab :: after
    /\ Eligible test lab (season_of c)
    /\ lab_id p = Lab.lab_id lab
    /\ lab_name p = Lab.name lab
    /\ price p = Lab.price_per_test lab
    /\ forall l, In l before -> Eligible test l (season_of c) ->
         finish_date p < finish_of (start_date p) test l
         \/ (finish_of (start_date p) test l = finish_date p
             /\ (price p < Lab.price_per_test l)%Q).
Proof.
  intros Hrun Ha Hp.
  destruct (schedule_entry_position _ _ _ _ _ _ _ Hrun Ha Hp)
    as (day & test & before & lab & after
        & Hfind & Hlabs & Hpass & -> & _ & Hbefore).
  exists test, before, lab, after. simpl.
  split; [exact Hfind|]. split; [exact Hlabs|].
  split; [now apply (passes_filter_Eligible tests (test_name a))|].
  repeat (split; [reflexivity|]).
  intros l Hl Hel. apply Hbefore; [exact Hl|].
  now apply (passes_filter_Eligible tests (test_name a)).
Qed.

(** Of the twins, which tie on finish date and price, the one listed first
    is chosen; Dear, listed before both, costs more. *)
Lemma first_of_the_best_witness :
  exists test before lab after,
    lookup_test Sample.tests "Residue" = Some test
    /\ Sample2.twins = before ++ lab :: after
    /\ Eligible test lab (season_of Sample2.twins_contract)
    /\ 8 = Lab.lab_id lab
    /\ "Twin 1" = Lab.name lab
    /\ 110%Q = Lab.price_per_test lab
    /\ forall l, In l before ->
         Eligible test l (season_of Sample2.twins_contract) ->
         738905 < finish_of 738895 test l
         \/ (finish_of 738895 test l = 738905
             /\ (110 < Lab.price_per_test l)%Q).
Proof.
  apply (first_of_the_best
           Sample2.twins Sample.tests Sample2.twins_contract
           Sample2.twins_schedule 0
           (mkAssignment "Residue" "scheduled"
              (Some (mkPlacement 8 "Twin 1" 738895 738905 20 110)))
           (mkPlacement 8 "Twin 1" 738895 738905 20 110)).
  - vm_compute. reflexivity.
  - reflexivity.
  - reflexivity.
Defined.

(** X. Within one schedule a test always goes to the same lab: two
    assignments for the same test name (up to case) that both have a
    placement have the same lab, the same price and the same number of days
    from start to finish, wherever they stand in the chain. *)
Theorem same_test_same_lab
        (labs : list Lab.t) (tests : list Test.t) (c : Contract.t)
        (sch : list assignment) (i j : nat) (a b : assignment)
        (p q : placement) :
  schedule_for_contract labs tests c = Ok sch ->
  nth_error sch i = Some a -> placed a = Some p ->
  nth_error sch j = Some b -> placed b = Some q ->
  Str.lower (test_name a) = Str.lower (test_name b) ->
  lab_id p = lab_id q
  /\ lab_name p = lab_name q
  /\ price p = price q
  /\ finish_date p - start_date p = finish_date q - start_date q.
Proof.
  intros Hrun Ha Hp Hb Hq Hname.
  destruct (schedule_entry_position _ _ _ _ _ _ _ Hrun Ha Hp)
    as (d1 & t1 & b1 & lab1 & a1 & Hf1 & Hl1 & Hp1 & -> & Hmin1 & Hbef1).
  destruct (schedule_entry_position _ _ _ _ _ _ _ Hrun Hb Hq)
    as (d2 & t2 & b2 & lab2 & a2 & Hf2 & Hl2 & Hp2 & -> & Hmin2 & Hbef2).
  rewrite (lookup_test_lower tests _ _ Hname) in Hf1.
  assert (t1 = t2) by congruence. subst t2.
  assert (Hpass : forall l,
             passes_filter (test_name a) (req_storage_of t1) (season_of c) l
             = passes_filter (test_name b) (req_storage_of t1) (season_of c) l)
    by (intros l; now apply passes_filter_lower_name).
  assert (Hin1 : In lab1 labs) by (rewrite Hl1; apply in_elt).
  assert (Hin2 : In lab2 labs) by (rewrite Hl2; apply in_elt).
  assert (Hsame : lab1 = lab2).
  { destruct (Nat.lt_trichotomy (List.length b1) (List.length b2))
      as [Hlt|[Heq|Hgt]].
    - exfalso.
      assert (Hx : In lab1 b2)
        by (apply (app_mid_earlier b1 b2 a1 a2 lab1 lab2); congruence).
      rewrite Hpass in Hp1.
      specialize (Hbef2 lab1 Hx Hp1).
      rewrite <- Hpass in Hp2. specialize (Hmin1 lab2 Hin2 Hp2).
      unfold ranks_before, finish_of in *. destruct Hmin1 as [Hle Hpr].
      destruct Hbef2 as [H|[H1 H2]]; [lia|].
      apply (Qlt_not_le _ _ H2). apply Hpr. lia.
    - apply (app_mid_same b1 b2 a1 a2); congruence.
    - exfalso.
      assert (Hx : In lab2 b1)
        by (apply (app_mid_earlier b2 b1 a2 a1 lab2 lab1); congruence).
      rewrite <- Hpass in Hp2.
      specialize (Hbef1 lab2 Hx Hp2).
      rewrite Hpass in Hp1. specialize (Hmin2 lab1 Hin1 Hp1).
      unfold ranks_before, finish_of in *. destruct Hmin2 as [Hle Hpr].
      destruct Hbef1 as [H|[H1 H2]]; [lia|].
      apply (Qlt_not_le _ _ H2). apply Hpr. lia. }
  subst lab2. simpl. unfold finish_of. repeat split; lia.
Qed.

Lemma same_test_same_lab_witness :
  1 = 1 /\ "Lab A" = "Lab A" /\ 120%Q = 120%Q
  /\ 738905 - 738895 = 738915 - 738905.
Proof.
  apply (same_test_same_lab
           Sample.labs Sample.tests Sample2.longer_contract
           Sample2.longer_schedule 0 3
           (mkAssignment "Residue" "scheduled"
              (Some (mkPlacement 1 "Lab A" 738895 738905 20 120)))
           (mkAssignment "Residue" "scheduled"
              (Some (mkPlacement 1 "Lab A" 738905 738915 10 120)))
           (mkPlacement 1 "Lab A" 738895 738905 20 120)
           (mkPlacement 1 "Lab A" 738905 738915 10 120)).
  - vm_compute. reflexivity.
  - reflexivity.
  - reflexivity.
  - reflexivity.
  - reflexivity.
  - reflexivity.
Defined.

(** ** When the scheduler raises *)

Lemma candidates_body_raises_iff (name : string) (duration : Z)
      (req season : string) (day deadline : Date.t)
      (cands : list candidate) (lab : Lab.t) (e : exn) :
  candidates_body name duration req season day deadline cands lab = Raise e
  <-> e = OverflowError
      /\ passes_filter name req season lab = true
      /\ out_of_range day duration lab.
Proof.
  rewrite candidates_body_filter. unfold out_of_range.
  destruct (passes_filter name req season lab);
    [|split; [discriminate | intros (_ & Hx & _); discriminate]].
  unfold timedelta, date_add, Date.MAXORDINAL.
  destruct (Z.leb_spec (Z.abs (duration + Lab.turnaround_days lab)) 999999999)
    as [Ha|Ha]; simpl.
  - destruct (Z.ltb_spec 0 (day + (duration + Lab.turnaround_days lab)))
      as [Hb|Hb];
      destruct (Z.leb_spec (day + (duration + Lab.turnaround_days lab))
                           3652059) as [Hc|Hc]; simpl;
      (split;
       [ intros E;
         first [ discriminate E
               | injection E as <-;
                 split; [reflexivity | split; [reflexivity | lia]] ]
       | intros (-> & _ & Hx); reflexivity || lia ]).
  - split; [intros E; injection E as <- | intros (-> & _); reflexivity].
    split; [reflexivity | split; [reflexivity | lia]].
Qed.

Lemma candidates_loop_raises_iff (name : string) (duration : Z)
      (req season : string) (day deadline : Date.t) (labs : list Lab.t)
      (acc : list candidate) (e : exn) :
  for_each (candidates_body name duration req season day deadline) labs acc
  = Raise e
  <-> e = OverflowError
      /\ exists lab, In lab labs
                     /\ passes_filter name req season lab = true
                     /\ out_of_range day duration lab.
Proof.
  revert acc. induction labs as [|lab labs IH]; intros acc; simpl.
  - split; [discriminate | intros (_ & l & [] & _)].
  - destruct (candidates_body name duration req season day deadline acc lab)
      as [acc'|e'] eqn:Hb; simpl.
    + rewrite IH. split.
      * intros (He & l & Hl & H). split; [exact He|]. exists l. tauto.
      * intros (He & l & [<-|Hl] & Hp & Ho).
        -- assert (Hr : candidates_body name duration req season day deadline
                                        acc lab = Raise OverflowError)
             by (apply candidates_body_raises_iff; tauto).
           congruence.
        -- split; [exact He|]. exists l. tauto.
    + apply candidates_body_raises_iff in Hb. destruct Hb as (-> & Hp & Ho).
      split.
      * intros E. injection E as <-. split; [reflexivity|]. exists lab. tauto.
      * intros (-> & _). reflexivity.
Qed.

Lemma schedule_body_raises_iff (labs : list Lab.t) (tests : list Test.t)
      (season : string) (deadline : Date.t) (st : loop_state) (name : string)
      (e : exn) :
  schedule_body labs tests season deadline st name = Raise e
  <-> e = OverflowError
      /\ exists test lab,
           lookup_test tests name = Some test
           /\ In lab labs
           /\ passes_filter name (req_storage_of test) season lab = true
           /\ out_of_range (day_of_sample st) (Test.duration_days test) lab.
Proof.
  unfold schedule_body.
  destruct (lookup_test tests name) as [test|];
    [|split; [discriminate | intros (_ & t & l & H & _); discriminate]].
  destruct (for_each _ labs []) as [cs|e'] eqn:Hcs; simpl.
  - split.
    + destruct cs as [|x xs]; [discriminate|].
      destruct (sorted (x :: xs)) eqn:Hs; [|discriminate].
      apply sorted_nil in Hs. discriminate.
    + intros (-> & t & l & Ht & Hl & Hp & Ho). injection Ht as <-.
      assert (Hr : for_each (candidates_body name (Test.duration_days test)
                               (req_storage_of test) season (day_of_sample st)
                               deadline) labs [] = Raise OverflowError)
        by (apply candidates_loop_raises_iff; split; [reflexivity|];
            exists l; tauto).
      congruence.
  - apply candidates_loop_raises_iff in Hcs.
    destruct Hcs as (-> & l & Hl & Hp & Ho). split.
    + intros E. injection E as <-. split; [reflexivity|].
      exists test, l. tauto.
    + intros (-> & _). reflexivity.
Qed.

(** A loop raises at the first element whose body raises, all the elements
    before it having gone through. *)
Lemma for_each_raises_iff {St A : Type} (body : St -> A -> result St)
      (xs : list A) (s : St) (e : exn) :
  for_each body xs s = Raise e
  <-> exists i x st,
        nth_error xs i = Some x
        /\ for_each body (firstn i xs) s = Ok st
        /\ body st x = Raise e.
Proof.
  revert s. induction xs as [|x xs IH]; intros s; simpl.
  - split; [discriminate | intros ([|i] & y & st & H & _); discriminate].
  - destruct (body s x) as [s1|e'] eqn:Hb; simpl.
    + rewrite IH. split.
      * intros (i & y & st & Hn & Hf & Hr). exists (S i), y, st. simpl.
        rewrite Hb. simpl. tauto.
      * intros ([|i] & y & st & Hn & Hf & Hr); simpl in *.
        -- injection Hn as <-. injection Hf as <-. congruence.
        -- rewrite Hb in Hf. simpl in Hf. exists i, y, st. tauto.
    + split.
      * intros E. injection E as <-. exists 0%nat, x, s. simpl. tauto.
      * intros ([|i] & y & st & Hn & Hf & Hr); simpl in *.
        -- injection Hn as <-. injection Hf as <-. congruence.
        -- rewrite Hb in Hf. discriminate.
Qed.

(** X. A date that overflows aborts the whole call: when a required test
    is reached whose row is found and for which some eligible lab, chosen or
    not, has a finish date outside the calendar (or a [timedelta] of more
    than 999999999 days), [schedule_for_contract] raises [OverflowError] and
    returns no schedule, not even for the tests before it. The lookup
    [candidates_sorted[0]], on the other hand, never raises [IndexError]. *)
Theorem date_overflow_aborts_the_schedule
        (labs : list Lab.t) (tests : list Test.t) (c : Contract.t) :
  (forall i name st test lab,
      nth_error (required_tests c) i = Some name ->
      state_at labs tests c i = Ok st ->
      lookup_test tests name = Some test ->
      In lab labs ->
      Eligible test lab (season_of c) ->
      out_of_range (day_of_sample st) (Test.duration_days test) lab ->
      schedule_for_contract labs tests c = Raise OverflowError)
  /\ schedule_for_contract labs tests c <> Raise IndexError.
Proof.
  split.
  - intros i name st test lab Hn Hst Hf Hl Hel Ho.
    unfold schedule_for_contract. fold (season_of c).
    unfold state_at in Hst.
    assert (Hr : for_each (schedule_body labs tests (season_of c)
                             (Contract.contract_deadline c))
                          (required_tests c)
                          (mkState [] (Contract.sample_collection_date c))
                 = Raise OverflowError).
    { apply for_each_raises_iff. exists i, name, st.
      split; [exact Hn|]. split; [exact Hst|].
      apply schedule_body_raises_iff. split; [reflexivity|].
      exists test, lab. repeat (split; [assumption|]). split; [|exact Ho].
      now apply (passes_filter_Eligible tests name). }
    now rewrite Hr.
  - intros H. apply schedule_raises in H. discriminate H.
Qed.

(** Sampled five days before the end of the calendar, Residue cannot finish
    at Lab A: the call raises, although the unknown test before it had gone
    through. *)
Lemma date_overflow_aborts_the_schedule_witness :
  schedule_for_contract Sample.labs Sample.tests Sample2.last_days
  = Raise OverflowError.
Proof.
  apply (proj1 (date_overflow_aborts_the_schedule
                  Sample.labs Sample.tests Sample2.last_days)
               1%nat "Residue"
               (mkState [mkAssignment "Ghost" "test not found in tests.xlsx"
                                      None]
                        (Date.MAXORDINAL - 5))
               Sample.residue Sample.lab_a).
  - reflexivity.
  - vm_compute. reflexivity.
  - reflexivity.
  - simpl. auto.
  - apply (passes_filter_Eligible Sample.tests "Residue"); reflexivity.
  - right. right. vm_compute. reflexivity.
Defined.

(** ** Rows of the same name *)

Lemma for_each_ext {St A : Type} (body1 body2 : St -> A -> result St)
      (xs : list A) (s : St) :
  (forall s x, body1 s x = body2 s x) ->
  for_each body1 xs s = for_each body2 xs s.
Proof.
  intros Hext. revert s. induction xs as [|x xs IH]; intros s; simpl;
    [reflexivity|].
  rewrite Hext. destruct (body2 s x); simpl; [apply IH | reflexivity].
Qed.

Lemma find_over_app {A : Type} (f : A -> bool) (l1 l2 : list A) :
  find f (l1 ++ l2)
  = match find f l1 with Some x => Some x | None => find f l2 end.
Proof.
  induction l1 as [|x l1 IH]; simpl; [reflexivity|].
  destruct (f x); [reflexivity | exact IH].
Qed.

Lemma schedule_same_lookup (labs : list Lab.t) (tests1 tests2 : list Test.t)
      (c : Contract.t) :
  (forall name, lookup_test tests1 name = lookup_test tests2 name) ->
  schedule_for_contract labs tests1 c = schedule_for_contract labs tests2 c.
Proof.
  intros Hlook. unfold schedule_for_contract.
  rewrite (for_each_ext _ (schedule_body labs tests2
                             (months_to_season
                                (Date.month (Contract.sample_collection_date c)))
                             (Contract.contract_deadline c)));
    [reflexivity|].
  intros s x. unfold schedule_body. now rewrite Hlook.
Qed.

(** X. Of several rows of the Tests table whose names agree up to case, the
    first one is used and the later ones are never looked at: taking a later
    one out of the table does not change the schedule. *)
Theorem later_duplicates_are_ignored
        (labs : list Lab.t) (before mid after : list Test.t)
        (row dup : Test.t) (c : Contract.t) :
  Str.lower (Test.test_name dup) = Str.lower (Test.test_name row) ->
  schedule_for_contract labs (before ++ row :: mid ++ dup :: after) c
  = schedule_for_contract labs (before ++ row :: mid ++ after) c.
Proof.
  intros Hdup. apply schedule_same_lookup. intros name. unfold lookup_test.
  set (f := fun r => String.eqb (Str.lower (Test.test_name r)) (Str.lower name)).
  change (before ++ row :: mid ++ dup :: after)
    with (before ++ (row :: mid) ++ dup :: after).
  change (before ++ row :: mid ++ after)
    with (before ++ (row :: mid) ++ after).
  rewrite !find_over_app.
  destruct (find f before); [reflexivity|].
  simpl. destruct (f row) eqn:Hrow; [reflexivity|].
  destruct (find f mid); [reflexivity|].
  replace (f dup) with (f row); [now rewrite Hrow|].
  unfold f. now rewrite Hdup.
Qed.

Lemma later_duplicates_are_ignored_witness :
  schedule_for_contract
    Sample.labs
    ([] ++ Sample.residue :: [Sample.purity] ++ Sample2.blank :: [])
    Sample.contract
  = schedule_for_contract
      Sample.labs ([] ++ Sample.residue :: [Sample.purity] ++ [])
      Sample.contract.
Proof.
  apply later_duplicates_are_ignored. reflexivity.
Defined.

(** ** More on the summary *)

Lemma missed_is_count (sch : list assignment) :
  missed sch = count_status "will miss deadline" sch.
Proof.
  unfold missed, count_status. destruct sch as [|a sch]; [reflexivity|].
  cbn [has_status_column]. now rewrite rows_with_status_count.
Qed.

Lemma count_status_cons (s : string) (a : assignment) (sch : list assignment) :
  count_status s (a :: sch)
  = (if String.eqb (status a) s then 1 else 0) + count_status s sch.
Proof.
  unfold count_status. simpl.
  destruct (String.eqb_spec (status a) s) as [E|N];
    destruct (string_dec (status a) s); try congruence; lia.
Qed.

(** The kinds of assignment a schedule is made of. *)
Lemma schedule_kinds
      (labs : list Lab.t) (tests : list Test.t) (c : Contract.t)
      (sch : list assignment) :
  schedule_for_contract labs tests c = Ok sch ->
  Forall (fun a =>
            (placed a = None
             /\ (status a = "test not found in tests.xlsx"
                 \/ status a = "no suitable lab found"))
            \/ (placed a <> None
                /\ (status a = "scheduled" \/ status a = "will miss deadline")))
         sch.
Proof.
  intros Hrun. apply Forall_forall. intros a Hin.
  destruct (schedule_member _ _ _ _ _ Hrun Hin) as (name & st & st' & _ & Hout).
  destruct Hout as [Hnf | t Hf Hnone | t l Hf Hl Hpass Hmin]; simpl.
  - left. auto.
  - left. auto.
  - right. split; [discriminate|].
    destruct (0 <=? _); [now left | now right].
Qed.

Ltac eval_status_tests :=
  repeat match goal with
         | |- context [String.eqb ?x ?y] =>
             let b := eval vm_compute in (String.eqb x y) in
             change (String.eqb x y) with b
         end;
  cbv iota.

(** X. In a returned schedule every assignment is counted once and every
    price is in one column: the numbers of assignments with each of the four
    statuses add up to the number of required tests, [missed] being one of
    them; the column that [total_cost] sums has a price in every row; and
    the prices of the "scheduled" rows together with those of the "will miss
    deadline" rows are the prices of all placements, each once. *)
Theorem summary_partitions_the_schedule
        (labs : list Lab.t) (tests : list Test.t) (c : Contract.t)
        (sch : list assignment) :
  schedule_for_contract labs tests c = Ok sch ->
  count_status "scheduled" sch + missed sch
  + count_status "no suitable lab found" sch
  + count_status "test not found in tests.xlsx" sch
  = Z.of_nat (List.length (required_tests c))
  /\ (forall x, In x (price_column (rows_with_status "scheduled" sch)) ->
                x <> None)
  /\ Permutation
       (placed_prices (rows_with_status "scheduled" sch)
        ++ placed_prices (rows_with_status "will miss deadline" sch))
       (placed_prices sch).
Proof.
  intros Hrun.
  assert (Hlen : List.length (required_tests c) = List.length sch).
  { destruct (schedule_run _ _ _ _ Hrun) as (final & Hloop & Hfin).
    apply schedule_loop_appends in Hloop.
    destruct Hloop as (m & Hm & Hnames). simpl in Hm.
    now rewrite <- Hnames, length_map, <- Hm, Hfin. }
  rewrite Hlen, missed_is_count.
  pose proof (schedule_kinds _ _ _ _ Hrun) as Hkinds. clear Hrun Hlen.
  induction Hkinds as [|a sch Ha _ IH].
  { split; [reflexivity|]. split; [intros x [] | apply perm_nil]. }
  destruct IH as (IHn & IHc & IHp). rewrite !count_status_cons.
  cbn [rows_with_status filter price_column map placed_prices List.length].
  fold (rows_with_status "scheduled" sch).
  fold (rows_with_status "will miss deadline" sch).
  rewrite Nat2Z.inj_succ.
  destruct Ha as [[Hp [Hs|Hs]] | [Hp [Hs|Hs]]]; rewrite Hs;
    eval_status_tests; (split; [lia|]).
  - rewrite Hp. split; assumption.
  - rewrite Hp. split; assumption.
  - destruct (placed a) as [p|] eqn:Ep; [|congruence].
    cbn [price_column map placed_prices]. rewrite Ep. split.
    + intros x [<-|Hx]; [discriminate | now apply IHc].
    + cbn [app]. now apply perm_skip.
  - destruct (placed a) as [p|] eqn:Ep; [|congruence].
    cbn [placed_prices]. rewrite Ep. split; [exact IHc|].
    apply Permutation_sym, Permutation_cons_app, Permutation_sym. exact IHp.
Qed.

Lemma summary_partitions_the_schedule_witness :
  count_status "scheduled" Sample.drifting_schedule
  + missed Sample.drifting_schedule
  + count_status "no suitable lab found" Sample.drifting_schedule
  + count_status "test not found in tests.xlsx" Sample.drifting_schedule
  = Z.of_nat (List.length (required_tests Sample.drifting))
  /\ (forall x,
         In x (price_column
                 (rows_with_status "scheduled" Sample.drifting_schedule)) ->
         x <> None)
  /\ Permutation
       (placed_prices (rows_with_status "scheduled" Sample.drifting_schedule)
        ++ placed_prices
             (rows_with_status "will miss deadline" Sample.drifting_schedule))
       (placed_prices Sample.drifting_schedule).
Proof.
  apply (summary_partitions_the_schedule
           Sample.seasonal_labs Sample.tests Sample.drifting).
  vm_compute. reflexivity.
Defined.
